(** * cert-deployer: the deployment script [python_tools/deploy.py]

    A shallow embedding of [ContractDeployer] and of the collaborators it
    talks to (chain node, compiler, IPFS daemon, ENS contracts, the
    contract-record file), followed by the properties of the deployment
    sequence.

    The script is straight-line Python with one [try/except]; it is modelled
    in a reader/state/exception monad:
    - the reader part ([env]) holds what the collaborators answer;
    - the state part ([state]) holds the attributes of [self], the content
      of the contract-record file and the trace of external calls;
    - the exception part ([result]) is Python's [raise]. *)

From Stdlib Require Import ZArith Lia SpecFloat.
From stdpp Require Import gmap strings list fin_maps.

Set Warnings "-register-all".
#[local] Open Scope Z_scope.

(** ** Python values *)

(** What [json.loads] returns: the decoded value, not its spelling.
    Objects are dicts with string keys, taken as finite maps (a dict
    keeps one entry per key, the last one of the text when a key is
    repeated; the order of the keys plays no part in the script).  A
    number is decoded to an [int], of any size, or to a [float], a
    double: [1e400] and [Infinity] both decode to the infinite double,
    [NaN] to the one that is not a number.  The script never computes
    with a number it has read. *)
Inductive json :=
| JNull
| JBool (b : bool)
| JNum (z : Z)
| JFloat (x : spec_float)
| JStr (s : string)
| JArr (l : list json)
| JObj (m : gmap string json).

(** A piece of text as [json.loads] sees it: either text that the decoder
    rejects, or a text that decodes to the value [v].  [JsonText v]
    stands for every spelling of [v]; what [json.dump v] writes is one of
    them, and decodes to [v] again.  So a file that is read and written
    back holds the same values under a spelling that may differ from the
    one it had (layout, the way a number is written, repeated keys).
    The empty text is [Garbled ""]. *)
Inductive text :=
| Garbled (raw : string)
| JsonText (v : json).

(** [bytes] objects (hashes) and the values sent to and read from the ENS
    contracts. *)
Definition bytes := list Byte.byte.

Inductive value :=
| VBytes (b : bytes)
| VStr (s : string).

(** ** Exceptions *)

Inductive exn :=
| SystemExit (msg : string)
| FileNotFoundError (path : string)
| JSONDecodeError
| KeyError (key : string)
| TypeError
| AttributeError (name : string)
| ExternalError (what : string).

Inductive result (A : Type) :=
| Ret (a : A)
| Raise (e : exn).
Arguments Ret {A} a.
Arguments Raise {A} e.

(** ** Collaborators *)

(** The dict literal passed to [buildTransaction] in [_deploy]. *)
Record tx_params := TxParams { nonce : Z; gas : Z }.

Record receipt := Receipt { contractAddress : string; gasUsed : Z }.

(** One contract of the compiler output:
    [['evm']['bytecode']['object']] and [['metadata']]. *)
Record contract_output := ContractOutput {
  evm_bytecode_object : string;
  metadata : text }.

(** The compiler output: [compiled_sol['contracts'][file][name]]; [None]
    when the key ['contracts'] is missing. *)
Record compiled_sol := CompiledSol {
  contracts : option (gmap string (gmap string contract_output)) }.

Inductive level := INFO | WARNING.

Inductive message :=
| MsgTryingToStartIpfs
| MsgStartedIpfs
| MsgConnectedIpfs
| MsgNotConnectedIpfs
| MsgIpfsHash (h : string)
| MsgCheckAbi (h : string)
| MsgGasUsed (g : Z)
| MsgDeployed (addr : string)
| MsgEnsSet (addr name : value) (content : string).

(** External calls, in the order they are issued. *)
Inductive event :=
| EMakeW3
| EGasPrice
| EGetBalance (addr : string)
| ELog (lvl : level) (msg : message)
| EPopen (argv : list string)
| ESleep (secs : Z)
| EIpfsConnect (maddr : string)
| EIpfsAdd (path : string)
| ESubprocessRun (argv : list string)
| EIpfsClose
| EOpenRead (path : string)
| EOpenWrite (path : string)
| EJsonDump (path : string)
| ECompileStandard
| EEthContract
| EEstimateGas
| EGetTransactionCount (addr : string)
| EBuildTransaction (p : tx_params)
| ESignTransaction
| ESendRawTransaction (raw : string)
| EWaitForTransactionReceipt (tx_hash : string)
| EContractConnection (name : string)
| ETransact (contract method : string) (args : list value)
| ECall (contract method : string) (args : list value).

(** What the outside world answers during one run.  Every external call of
    a run has its own function and arguments, so a function of the
    arguments loses nothing.  The three paths name three different
    files: the contract source and the compiler options are only read; the
    contract-record file is written and lives in the [state]. *)
Record env := Env {
  (* onchaining_tools.config, onchaining_tools.path_tools *)
  config_current_chain : string;
  get_contract_path : string;
  get_compile_data_path : string;
  get_contr_info_path : string;
  contract_file : option string;
  compile_data_file : option text;
  (* onchaining_tools.connections.MakeW3: the account's address *)
  MakeW3 : result string;
  (* chain node *)
  gasPrice : result Z;
  getBalance : string -> result Z;
  eth_contract : json -> string -> result unit;
  estimateGas : json -> string -> result Z;
  getTransactionCount : string -> result Z;
  buildTransaction : tx_params -> result string;
  sign_transaction : string -> result string;
  sendRawTransaction : string -> result string;
  waitForTransactionReceipt : string -> result receipt;
  toChecksumAddress : string -> result string;
  keccak : string -> bytes;
  (* solc *)
  compile_standard : json -> result compiled_sol;
  (* IPFS *)
  Popen : list string -> result unit;
  ipfs_connect : string -> result unit;
  ipfs_add : string -> result string;
  subprocess_run : list string -> result unit;
  ipfs_close : result unit;
  (* ENS *)
  ContractConnection : string -> result unit;
  transact : string -> string -> list value -> result unit;
  call : string -> string -> list value -> result value;
  namehash : string -> bytes;
  content_hash_encode : string -> string -> result string;
  content_hash_decode : string -> result string;
  hex : bytes -> string }.

(** ** The deployer object and the state of a run *)

(** [self._client]: [None] or the connected client. *)
Inductive client := PyNone | IpfsClient.

(** The attributes of [self]; [None] is an attribute that has not been
    assigned yet. *)
Record deployer := Deployer {
  current_chain : option string;
  _pubkey : option string;
  _client : option client;
  ipfs_hash : option string;
  bytecode : option string;
  abi : option json;
  contr_address : option string }.

Definition new_object : deployer :=
  Deployer None None None None None None None.

Record state := State {
  self : deployer;
  contr_info_file : option text;
  trace : list event }.

Definition initial (f : option text) : state := State new_object f [].

(** ** The monad *)

Definition M (A : Type) : Type := env -> state -> result A * state.

Definition ret {A} (a : A) : M A := fun _ s => (Ret a, s).

Definition bind {A B} (m : M A) (k : A -> M B) : M B :=
  fun E s =>
    match m E s with
    | (Ret a, s') => k a E s'
    | (Raise e, s') => (Raise e, s')
    end.

#[global] Instance M_ret : MRet M := @ret.
#[global] Instance M_bind : MBind M := fun A B k m => bind m k.

Definition raise {A} (e : exn) : M A := fun _ s => (Raise e, s).

(** [try: body except: handler] with a bare [except], which catches every
    exception, [SystemExit] included.  What the body did before it raised
    stays done. *)
Definition try_except (body handler : M unit) : M unit :=
  fun E s =>
    match body E s with
    | (Ret a, s') => (Ret a, s')
    | (Raise _, s') => handler E s'
    end.

Definition emit (e : event) : M unit :=
  fun _ s => (Ret tt, State (self s) (contr_info_file s) (trace s ++ [e])).

(** An external call: it is recorded, then answers or raises. *)
Definition external {A} (e : event) (answer : env -> result A) : M A :=
  fun E s => (answer E, State (self s) (contr_info_file s) (trace s ++ [e])).

Definition ask {A} (f : env -> A) : M A := fun E s => (Ret (f E), s).

Definition lift {A} (r : result A) : M A := fun _ s => (r, s).

(** A local computation of a library, which may raise. *)
Definition compute {A} (f : env -> result A) : M A := fun E s => (f E, s).

Definition logging (lvl : level) (msg : message) : M unit := emit (ELog lvl msg).

(** Reading and assigning attributes of [self]. *)
Definition attr {A} (name : string) (f : deployer -> option A) : M A :=
  fun _ s =>
    match f (self s) with
    | Some a => (Ret a, s)
    | None => (Raise (AttributeError name), s)
    end.

Definition assign (f : deployer -> deployer) : M unit :=
  fun _ s => (Ret tt, State (f (self s)) (contr_info_file s) (trace s)).

Definition set_current_chain (v : string) (d : deployer) : deployer :=
  Deployer (Some v) (_pubkey d) (_client d) (ipfs_hash d) (bytecode d) (abi d)
    (contr_address d).
Definition set_pubkey (v : string) (d : deployer) : deployer :=
  Deployer (current_chain d) (Some v) (_client d) (ipfs_hash d) (bytecode d)
    (abi d) (contr_address d).
Definition set_client (v : client) (d : deployer) : deployer :=
  Deployer (current_chain d) (_pubkey d) (Some v) (ipfs_hash d) (bytecode d)
    (abi d) (contr_address d).
Definition set_ipfs_hash (v : string) (d : deployer) : deployer :=
  Deployer (current_chain d) (_pubkey d) (_client d) (Some v) (bytecode d)
    (abi d) (contr_address d).
Definition set_bytecode (v : string) (d : deployer) : deployer :=
  Deployer (current_chain d) (_pubkey d) (_client d) (ipfs_hash d) (Some v)
    (abi d) (contr_address d).
Definition set_abi (v : json) (d : deployer) : deployer :=
  Deployer (current_chain d) (_pubkey d) (_client d) (ipfs_hash d) (bytecode d)
    (Some v) (contr_address d).
Definition set_contr_address (v : string) (d : deployer) : deployer :=
  Deployer (current_chain d) (_pubkey d) (_client d) (ipfs_hash d) (bytecode d)
    (abi d) (Some v).

(** ** JSON operations *)

(** [json.loads(raw)] *)
Definition json_loads (raw : text) : result json :=
  match raw with
  | JsonText v => Ret v
  | Garbled _ => Raise JSONDecodeError
  end.

(** [obj[key]] for a string key: only a dict can be indexed by a string. *)
Definition getitem (obj : json) (key : string) : result json :=
  match obj with
  | JObj m =>
      match m !! key with
      | Some v => Ret v
      | None => Raise (KeyError key)
      end
  | _ => Raise TypeError
  end.

(** [obj[key] = v] for a string key. *)
Definition setitem (obj : json) (key : string) (v : json) : result json :=
  match obj with
  | JObj m => Ret (JObj (<[key := v]> m))
  | _ => Raise TypeError
  end.

(** [d[key]] on a typed dict of the compiler output. *)
Definition lookup_key {A} (d : gmap string A) (key : string) : result A :=
  match d !! key with
  | Some v => Ret v
  | None => Raise (KeyError key)
  end.

(** ** Files *)

(** [with open(path) as f: f.read()] on the two read-only files. *)
Definition read_file {A} (path : env -> string) (file : env -> option A) : M A :=
  fun E s =>
    (match file E with
     | Some c => Ret c
     | None => Raise (FileNotFoundError (path E))
     end,
     State (self s) (contr_info_file s) (trace s ++ [EOpenRead (path E)])).

(** [with open(tools.get_contr_info_path(), "r") as f: f.read()] *)
Definition read_contr_info : M text :=
  fun E s =>
    (match contr_info_file s with
     | Some c => Ret c
     | None => Raise (FileNotFoundError (get_contr_info_path E))
     end,
     State (self s) (contr_info_file s)
       (trace s ++ [EOpenRead (get_contr_info_path E)])).

(** [open(tools.get_contr_info_path(), "w+")]: creates the file or
    truncates it to the empty text. *)
Definition open_contr_info_w : M unit :=
  fun E s =>
    (Ret tt,
     State (self s) (Some (Garbled ""))
       (trace s ++ [EOpenWrite (get_contr_info_path E)])).

(** [json.dump(v, f)] into the file just opened, and the end of the
    [with] block. *)
Definition json_dump (v : json) : M unit :=
  fun E s =>
    (Ret tt,
     State (self s) (Some (JsonText v))
       (trace s ++ [EJsonDump (get_contr_info_path E)])).

(** ** External calls *)

Definition eth_gasPrice : M Z := external EGasPrice gasPrice.
Definition eth_getBalance (addr : string) : M Z :=
  external (EGetBalance addr) (fun E => getBalance E addr).
Definition w3_eth_contract (a : json) (b : string) : M unit :=
  external EEthContract (fun E => eth_contract E a b).
Definition constructor_estimateGas (a : json) (b : string) : M Z :=
  external EEstimateGas (fun E => estimateGas E a b).
Definition eth_getTransactionCount (addr : string) : M Z :=
  external (EGetTransactionCount addr) (fun E => getTransactionCount E addr).
Definition constructor_buildTransaction (p : tx_params) : M string :=
  external (EBuildTransaction p) (fun E => buildTransaction E p).
Definition acct_sign_transaction (txn : string) : M string :=
  external ESignTransaction (fun E => sign_transaction E txn).
Definition eth_sendRawTransaction (raw : string) : M string :=
  external (ESendRawTransaction raw) (fun E => sendRawTransaction E raw).
Definition eth_waitForTransactionReceipt (tx_hash : string) : M receipt :=
  external (EWaitForTransactionReceipt tx_hash)
    (fun E => waitForTransactionReceipt E tx_hash).
Definition solc_compile_standard (opt : json) : M compiled_sol :=
  external ECompileStandard (fun E => compile_standard E opt).
Definition subprocess_Popen (argv : list string) : M unit :=
  external (EPopen argv) (fun E => Popen E argv).
Definition time_sleep (secs : Z) : M unit := emit (ESleep secs).
Definition ipfshttpclient_connect (maddr : string) : M unit :=
  external (EIpfsConnect maddr) (fun E => ipfs_connect E maddr).
Definition client_add (path : string) : M string :=
  external (EIpfsAdd path) (fun E => ipfs_add E path).
Definition subprocess_run_ (argv : list string) : M unit :=
  external (ESubprocessRun argv) (fun E => subprocess_run E argv).
Definition client_close : M unit := external EIpfsClose ipfs_close.
Definition new_ContractConnection (name : string) : M string :=
  external (EContractConnection name)
    (fun E => match ContractConnection E name with
              | Ret _ => Ret name
              | Raise e => Raise e
              end).
Definition functions_transact (c method : string) (args : list value) : M unit :=
  external (ETransact c method args) (fun E => transact E c method args).
Definition functions_call (c method : string) (args : list value) : M value :=
  external (ECall c method args) (fun E => call E c method args).

(** [v.hex()]: a method of [bytes], not of [str]. *)
Definition py_hex (v : value) : M string :=
  match v with
  | VBytes b => ask (fun E => hex E b)
  | VStr _ => raise (AttributeError "hex")
  end.

(** ** ContractDeployer *)

Definition insufficient_balance : string :=
  "Your gas balance is not sufficient for performing all transactions.".

(** [check_balance] (deploy.py, 44-52) *)
Definition check_balance : M unit :=
  let gas_limit := 600000 in
  gas_price ← eth_gasPrice;
  pubkey ← attr "_pubkey" _pubkey;
  gas_balance ← eth_getBalance pubkey;
  if bool_decide (gas_balance < gas_limit * gas_price)
  then raise (SystemExit insufficient_balance)
  else ret tt.

(** [__init__] (deploy.py, 33-42) *)
Definition __init__ : M unit :=
  chain ← ask config_current_chain;
  assign (set_current_chain chain);;
  address ← external EMakeW3 MakeW3;
  assign (set_pubkey address);;
  check_balance.

(** [_open_ipfs_connection] (deploy.py, 63-79).  Opening and closing
    [os.devnull] is left out. *)
Definition _open_ipfs_connection : M unit :=
  try_except
    (logging INFO MsgTryingToStartIpfs;;
     subprocess_Popen ["ipfs"; "init"];;
     subprocess_Popen ["ipfs"; "daemon"];;
     time_sleep 7;;
     ipfshttpclient_connect "/ip4/127.0.0.1/tcp/5001/http";;
     assign (set_client IpfsClient);;
     logging INFO MsgStartedIpfs;;
     logging INFO MsgConnectedIpfs)
    (logging WARNING MsgNotConnectedIpfs;;
     assign (set_client PyNone)).

(** [_compile_contract] (deploy.py, 93-113) *)
Definition _compile_contract : M unit :=
  source_raw ← read_file get_contract_path contract_file;
  raw_opt ← read_file get_compile_data_path compile_data_file;
  opt ← lift (json_loads raw_opt);
  (* opt["sources"]["BlockCertsOnchaining.sol"]["content"] = source_raw *)
  sources ← lift (getitem opt "sources");
  entry ← lift (getitem sources "BlockCertsOnchaining.sol");
  entry ← lift (setitem entry "content" (JStr source_raw));
  sources ← lift (setitem sources "BlockCertsOnchaining.sol" entry);
  opt ← lift (setitem opt "sources" sources);
  compiled ← solc_compile_standard opt;
  by_file ← lift (match contracts compiled with
                   | Some c => Ret c
                   | None => Raise (KeyError "contracts")
                   end);
  by_name ← lift (lookup_key by_file "BlockCertsOnchaining.sol");
  out ← lift (lookup_key by_name "BlockCertsOnchaining");
  assign (set_bytecode (evm_bytecode_object out));;
  meta ← lift (json_loads (metadata out));
  output ← lift (getitem meta "output");
  a ← lift (getitem output "abi");
  assign (set_abi a).

(** The key under which every run stores its record. *)
Definition record_key : string := "blockcertsonchaining".

(** [{'abi': self.abi, 'address': self.contr_address}] *)
Definition record_of (a : json) (address : string) : json :=
  JObj (<["abi" := a]> (<["address" := JStr address]> ∅)).

(** [_deploy], lines 146-147:
    [with open(tools.get_contr_info_path(), "w+") as f: json.dump(contr_info, f)] *)
Definition write_contr_info (contr_info : json) : M unit :=
  open_contr_info_w;;
  json_dump contr_info.

(** [_deploy], lines 137-147, "saving contract data": the record file is
    read, the record of this deployment is set under [record_key], and
    the whole mapping is written back. *)
Definition save_contract_data (tx_receipt : receipt) : M unit :=
  raw ← read_contr_info;
  contr_info ← lift (json_loads raw);
  assign (set_contr_address (contractAddress tx_receipt));;
  a ← attr "abi" abi;
  address ← attr "contr_address" contr_address;
  contr_info ← lift (setitem contr_info record_key (record_of a address));
  write_contr_info contr_info.

(** [_deploy] (deploy.py, 115-150) *)
Definition _deploy : M unit :=
  a ← attr "abi" abi;
  b ← attr "bytecode" bytecode;
  w3_eth_contract a b;;
  acct_addr ← attr "_pubkey" _pubkey;
  (* building raw transaction *)
  estimated_gas ← constructor_estimateGas a b;
  n ← eth_getTransactionCount acct_addr;
  construct_txn ← constructor_buildTransaction
                    {| nonce := n; gas := estimated_gas * 2 |};
  (* signing & sending a signed transaction, saving transaction hash *)
  signed ← acct_sign_transaction construct_txn;
  tx_hash ← eth_sendRawTransaction signed;
  tx_receipt ← eth_waitForTransactionReceipt tx_hash;
  logging INFO (MsgGasUsed (gasUsed tx_receipt));;
  (* saving contract data *)
  save_contract_data tx_receipt;;
  address ← attr "contr_address" contr_address;
  logging INFO (MsgDeployed address).

(** [_assign_ens] (deploy.py, 152-192) *)
Definition _assign_ens : M unit :=
  let ens_domain := "blockcerts.eth" in
  let label := "tub" in
  ens_registry ← new_ContractConnection "ropsten_ens_registry";
  node ← ask (fun E => namehash E ens_domain);
  subdomain ← ask (fun E => keccak E label);
  (* add Subdomain *)
  functions_transact ens_registry "setSubnodeOwner"
    [VBytes node; VBytes subdomain;
     VStr "0xB4d9313EE835b3d3eE7759826e1F3C3Ac23dFaf3"];;
  (* set Public Resolver *)
  let ens_subdomain := label +:+ "." +:+ ens_domain in
  subnode ← ask (fun E => namehash E ens_subdomain);
  functions_transact ens_registry "setResolver"
    [VBytes subnode; VStr "0x12299799a50340FB860D276805E78550cBaD3De3"];;
  (* set Address *)
  ens_resolver ← new_ContractConnection "ropsten_ens_resolver";
  address ← attr "contr_address" contr_address;
  address ← compute (fun E => toChecksumAddress E address);
  assign (set_contr_address address);;
  functions_transact ens_resolver "setAddr" [VBytes subnode; VStr address];;
  functions_transact ens_resolver "setName" [VBytes subnode; VStr ens_subdomain];;
  (* set Content *)
  let codec := "ipfs-ns" in
  c ← attr "_client" _client;
  match c with
  | IpfsClient =>
      h ← attr "ipfs_hash" ipfs_hash;
      chash ← compute (fun E => content_hash_encode E codec h);
      functions_transact ens_resolver "setContenthash" [VBytes subnode; VStr chash]
  | PyNone => ret tt
  end;;
  addr ← functions_call ens_resolver "addr" [VBytes subnode];
  name ← functions_call ens_resolver "name" [VBytes subnode];
  c ← attr "_client" _client;
  content ← match c with
            | IpfsClient =>
                v ← functions_call ens_resolver "contenthash" [VBytes subnode];
                content ← py_hex v;
                compute (fun E => content_hash_decode E content)
            | PyNone => ret "that is empty"
            end;
  logging INFO (MsgEnsSet addr name content).

(** [_update_ens_content], lines 82-86: the record file is added to IPFS
    when a client is connected; [self.ipfs_hash] stays [""] otherwise. *)
Definition publish_contr_info : M unit :=
  assign (set_ipfs_hash "");;
  c ← attr "_client" _client;
  match c with
  | IpfsClient =>
      path ← ask get_contr_info_path;
      h ← client_add path;
      assign (set_ipfs_hash h);;
      logging INFO (MsgIpfsHash h);;
      logging INFO (MsgCheckAbi h)
  | PyNone => ret tt
  end.

(** [_update_ens_content], lines 87-88 *)
Definition assign_ens_on_ropsten : M unit :=
  chain ← attr "current_chain" current_chain;
  if bool_decide (chain = "ropsten") then _assign_ens else ret tt.

(** [_update_ens_content], lines 89-91 *)
Definition shutdown_ipfs : M unit :=
  c ← attr "_client" _client;
  match c with
  | IpfsClient =>
      subprocess_run_ ["ipfs"; "shutdown"];;
      client_close
  | PyNone => ret tt
  end.

(** [_update_ens_content] (deploy.py, 81-91) *)
Definition _update_ens_content : M unit :=
  publish_contr_info;;
  assign_ens_on_ropsten;;
  shutdown_ipfs.

(** [do_deploy] (deploy.py, 54-61) *)
Definition do_deploy : M unit :=
  _open_ipfs_connection;;
  _compile_contract;;
  _deploy;;
  _update_ens_content.

(** [ContractDeployer().do_deploy()] (deploy.py, 195-199), on a fresh
    object. *)
Definition main : M unit :=
  __init__;;
  do_deploy.

(** A whole run of the script: the record file holds [f] when it starts. *)
Definition run (E : env) (f : option text) : result unit * state :=
  main E (initial f).

(** ** Sample environments *)

Module Sample.

Definition the_abi : json := JArr [JObj {["name" := JStr "issue"]}].

Definition the_metadata : json :=
  JObj {["output" := JObj {["abi" := the_abi]}]}.

Definition the_output : compiled_sol :=
  CompiledSol
    (Some {["BlockCertsOnchaining.sol" :=
              {["BlockCertsOnchaining" :=
                  ContractOutput "6080" (JsonText the_metadata)]}]}).

Definition the_options : json :=
  JObj {["language" := JStr "Solidity";
         "sources" := JObj {["BlockCertsOnchaining.sol" := JObj ∅]}]}.

(** Balance [b], gas price [p], gas estimate [g] on the chain [chain].
    The IPFS daemon answers when [ipfs], the compiler succeeds when
    [solc], the node accepts the raw transaction when [node], the ENS
    contracts accept transactions when [ens]; every other collaborator
    answers. *)
Definition world (chain : string) (b p g : Z) (ipfs solc node ens : bool) : env :=
  {| config_current_chain := chain;
     get_contract_path := "contracts/BlockCertsOnchaining.sol";
     get_compile_data_path := "data/compile_opt.json";
     get_contr_info_path := "data/contr_info.json";
     contract_file := Some "contract BlockCertsOnchaining {}";
     compile_data_file := Some (JsonText the_options);
     MakeW3 := Ret "0xAcc";
     gasPrice := Ret p;
     getBalance := fun _ => Ret b;
     eth_contract := fun _ _ => Ret tt;
     estimateGas := fun _ _ => Ret g;
     getTransactionCount := fun _ => Ret 7;
     buildTransaction := fun _ => Ret "txn";
     sign_transaction := fun _ => Ret "signed";
     sendRawTransaction := fun _ =>
       if node then Ret "0xhash" else Raise (ExternalError "nonce too low");
     waitForTransactionReceipt := fun _ => Ret (Receipt "0xc0ffee" 90000);
     toChecksumAddress := fun a => Ret a;
     keccak := fun _ => [];
     compile_standard := fun _ =>
       if solc then Ret the_output else Raise (ExternalError "solc failed");
     Popen := fun _ => Ret tt;
     ipfs_connect := fun _ =>
       if ipfs then Ret tt else Raise (ExternalError "connection refused");
     ipfs_add := fun _ => Ret "Qm";
     subprocess_run := fun _ => Ret tt;
     ipfs_close := Ret tt;
     ContractConnection := fun _ => Ret tt;
     transact := fun _ _ _ =>
       if ens then Ret tt else Raise (ExternalError "transaction reverted");
     call := fun _ _ _ => Ret (VBytes []);
     namehash := fun _ => [];
     content_hash_encode := fun _ h => Ret h;
     content_hash_decode := fun h => Ret h;
     hex := fun _ => "" |}.

(** One wei short of the worst case at gas price 1. *)
Definition poor : env := world "ropsten" 599999 1 100000 true true true true.

(** The object as [__init__] leaves it for [check_balance]. *)
Definition checking : state :=
  State (set_pubkey "0xAcc" (set_current_chain "ropsten" new_object)) None
    [EMakeW3].

(** The object as [_compile_contract] leaves it for [_deploy]. *)
Definition compiled (f : option text) : state :=
  State (set_abi the_abi (set_bytecode "6080" (self checking))) f [].

(** Sufficient balance, no IPFS daemon, not the test network. *)
Definition rich : env := world "mainnet" 600000 1 100000 false true true true.

(** As [rich], but the compiler fails. *)
Definition solc_fails : env := world "mainnet" 600000 1 100000 false false true true.

(** As [rich], but the node rejects the raw transaction. *)
Definition node_rejects : env := world "mainnet" 600000 1 100000 false true false true.

(** Receipts of two deployments. *)
Definition receipt_A : receipt := Receipt "0xA" 90000.
Definition receipt_B : receipt := Receipt "0xB" 90000.

(** A record file holding the empty mapping. *)
Definition empty_store : option text := Some (JsonText (JObj ∅)).

(** The test network with every collaborator answering. *)
Definition ropsten_up : env := world "ropsten" 600000 1 100000 true true true true.

(** The test network with the IPFS daemon up and the ENS contracts
    rejecting every transaction. *)
Definition ens_rejects : env := world "ropsten" 600000 1 100000 true true true false.

(** The object as [_deploy] leaves it for [_update_ens_content], with a
    connected client. *)
Definition deployed : state :=
  State (set_contr_address "0xc0ffee" (set_client IpfsClient (self (compiled None))))
    empty_store [].

(** A record file left by an earlier run for another contract. *)
Definition other_map : gmap string json :=
  {["other" := JObj {["abi" := JArr []; "address" := JStr "0x01"]}]}.
Definition other_record : json := JObj other_map.





(** As [E], with the node answering the receipt [rc]. *)
Definition with_receipt (rc : receipt) (E : env) : env :=
  {| config_current_chain := config_current_chain E;
     get_contract_path := get_contract_path E;
     get_compile_data_path := get_compile_data_path E;
     get_contr_info_path := get_contr_info_path E;
     contract_file := contract_file E;
     compile_data_file := compile_data_file E;
     MakeW3 := MakeW3 E;
     gasPrice := gasPrice E;
     getBalance := getBalance E;
     eth_contract := eth_contract E;
     estimateGas := estimateGas E;
     getTransactionCount := getTransactionCount E;
     buildTransaction := buildTransaction E;
     sign_transaction := sign_transaction E;
     sendRawTransaction := sendRawTransaction E;
     waitForTransactionReceipt := fun _ => Ret rc;
     toChecksumAddress := toChecksumAddress E;
     keccak := keccak E;
     compile_standard := compile_standard E;
     Popen := Popen E;
     ipfs_connect := ipfs_connect E;
     ipfs_add := ipfs_add E;
     subprocess_run := subprocess_run E;
     ipfs_close := ipfs_close E;
     ContractConnection := ContractConnection E;
     transact := transact E;
     call := call E;
     namehash := namehash E;
     content_hash_encode := content_hash_encode E;
     content_hash_decode := content_hash_decode E;
     hex := hex E |}.

(** A record file with an entry of another contract whose value is a
    number too large for a double: it decodes to the infinite one. *)
Definition huge_map : gmap string json :=
  {["other" := JObj {["abi" := JArr []; "address" := JStr "0x01";
                      "size" := JFloat (S754_infinity false)]}]}.

(** The object before [_compile_contract], with the client state set. *)
Definition connected : state :=
  State (set_client PyNone (self checking)) empty_store [].

(** The object before [_update_ens_content], off the test network and
    without a client. *)
Definition idle : state :=
  State (set_client PyNone (set_current_chain "mainnet" (self checking)))
    empty_store [].

(** A record file holding valid JSON that is not an object. *)
Definition list_store : option text := Some (JsonText (JArr [JNum 1])).

(** The test network with the content store rejecting the upload. *)
Definition add_fails (E : env) : env :=
  {| config_current_chain := config_current_chain E;
     get_contract_path := get_contract_path E;
     get_compile_data_path := get_compile_data_path E;
     get_contr_info_path := get_contr_info_path E;
     contract_file := contract_file E;
     compile_data_file := compile_data_file E;
     MakeW3 := MakeW3 E;
     gasPrice := gasPrice E;
     getBalance := getBalance E;
     eth_contract := eth_contract E;
     estimateGas := estimateGas E;
     getTransactionCount := getTransactionCount E;
     buildTransaction := buildTransaction E;
     sign_transaction := sign_transaction E;
     sendRawTransaction := sendRawTransaction E;
     waitForTransactionReceipt := waitForTransactionReceipt E;
     toChecksumAddress := toChecksumAddress E;
     keccak := keccak E;
     compile_standard := compile_standard E;
     Popen := Popen E;
     ipfs_connect := ipfs_connect E;
     ipfs_add := fun _ => Raise (ExternalError "add failed");
     subprocess_run := subprocess_run E;
     ipfs_close := ipfs_close E;
     ContractConnection := ContractConnection E;
     transact := transact E;
     call := call E;
     namehash := namehash E;
     content_hash_encode := content_hash_encode E;
     content_hash_decode := content_hash_decode E;
     hex := hex E |}.

End Sample.

(** ** Observations *)

(** What is looked at in a state: the record file, an attribute of [self],
    or the calls of one kind in the trace. *)
Definition on_file (s : state) : option text := contr_info_file s.
Definition on_self {X} (g : deployer -> X) (s : state) : X := g (self s).
Definition on_trace {X} (f : event -> option X) (s : state) : list X :=
  omap f (trace s).

(** Transactions built, by their parameters. *)
Definition built (e : event) : option tx_params :=
  match e with EBuildTransaction p => Some p | _ => None end.

(** Calls to the ENS registry and resolver. *)
Definition ens_call (e : event) : option event :=
  match e with
  | EContractConnection _ | ETransact _ _ _ | ECall _ _ _ => Some e
  | _ => None
  end.

(** ENS transactions, by contract and method. *)
Definition transacted (e : event) : option (string * string) :=
  match e with ETransact c m _ => Some (c, m) | _ => None end.

(** Calls to the content store. *)
Definition ipfs_added (e : event) : option string :=
  match e with EIpfsAdd p => Some p | _ => None end.

(** Closing the content channel: [ipfs shutdown] and [client.close()]. *)
Definition closing (e : event) : option event :=
  match e with
  | ESubprocessRun _ | EIpfsClose => Some e
  | _ => None
  end.

(** Calls that change something outside the process: transactions, the
    content store, the daemon, the record file. *)
Definition mutating (e : event) : option event :=
  match e with
  | ESendRawTransaction _ | ETransact _ _ _ | EIpfsAdd _ | EPopen _
  | ESubprocessRun _ | EOpenWrite _ | EJsonDump _ => Some e
  | _ => None
  end.

(** Receipts waited for, by transaction hash. *)
Definition waited (e : event) : option string :=
  match e with EWaitForTransactionReceipt h => Some h | _ => None end.

(** The receipt of a transaction has been confirmed: the wait was issued
    and the node answered it with the receipt [rc]. *)
Definition confirmed (E : env) (s : state) (rc : receipt) : Prop :=
  ∃ h, h ∈ on_trace waited s ∧ waitForTransactionReceipt E h = Ret rc.

(** A computation leaves an observation as it found it, whatever it
    returns. *)
Definition preserves {A X} (obs : state -> X) (m : M A) : Prop :=
  ∀ E s, obs (snd (m E s)) = obs s.

(** The contents the record file goes through while [write_contr_info]
    runs: before the [open], inside the [with] block before the dump, and
    after the block. *)
Definition write_states (contr_info : json) (E : env) (s : state)
  : list (option text) :=
  let s1 := snd (open_contr_info_w E s) in
  let s2 := snd (json_dump contr_info E s1) in
  [contr_info_file s; contr_info_file s1; contr_info_file s2].

(** Raw transactions passed to [sendRawTransaction], which only
    [_deploy] calls.  The ENS transactions are sent by [transact] and are
    [ETransact] events. *)
Definition sent (e : event) : option string :=
  match e with ESendRawTransaction raw => Some raw | _ => None end.

(** Warnings logged. *)
Definition warned (e : event) : option message :=
  match e with ELog WARNING msg => Some msg | _ => None end.

(** ENS transactions with their arguments. *)
Definition transact_args (e : event) : option (string * string * list value) :=
  match e with ETransact c m args => Some (c, m, args) | _ => None end.

(** Reads from the ENS resolver, by contract and method. *)
Definition called (e : event) : option (string * string) :=
  match e with ECall c m _ => Some (c, m) | _ => None end.

(** Contract addresses announced in the log as deployed. *)
Definition announced (e : event) : option string :=
  match e with ELog INFO (MsgDeployed addr) => Some addr | _ => None end.

(** Everything but reading a file and running the compiler. *)
Definition beyond_compiler (e : event) : option event :=
  match e with
  | EOpenRead _ | ECompileStandard => None
  | _ => Some e
  end.

(** The ENS transactions of a complete name binding, in order. *)
Definition binding_sequence : list (string * string) :=
  [("ropsten_ens_registry", "setSubnodeOwner");
   ("ropsten_ens_registry", "setResolver");
   ("ropsten_ens_resolver", "setAddr");
   ("ropsten_ens_resolver", "setName");
   ("ropsten_ens_resolver", "setContenthash")].

(** * Reasoning rules *)

Lemma run_bind {A B} (m : M A) (k : A -> M B) E s :
  (m ≫= k) E s =
  match m E s with
  | (Ret a, s') => k a E s'
  | (Raise e, s') => (Raise e, s')
  end.
Proof. reflexivity. Qed.

Lemma bind_inv {A B} (m : M A) (k : A -> M B) E s r s' :
  (m ≫= k) E s = (r, s') ->
  (∃ e, m E s = (Raise e, s') ∧ r = Raise e) ∨
  (∃ a s1, m E s = (Ret a, s1) ∧ k a E s1 = (r, s')).
Proof.
  rewrite run_bind. destruct (m E s) as [[a | e] s1]; intros H.
  - right. eauto.
  - left. inversion H; subst. eauto.
Qed.

Lemma bind_ret_inv {A B} (m : M A) (k : A -> M B) E s b s' :
  (m ≫= k) E s = (Ret b, s') ->
  ∃ a s1, m E s = (Ret a, s1) ∧ k a E s1 = (Ret b, s').
Proof.
  intros H. apply bind_inv in H as [(e & _ & ?) | ?]; [discriminate | done].
Qed.

Lemma preserves_run {A X} (obs : state -> X) (m : M A) E s r s' :
  preserves obs m -> m E s = (r, s') -> obs s' = obs s.
Proof. intros H Hm. specialize (H E s). by rewrite Hm in H. Qed.

Section Frame.
Context {X : Type} (obs : state -> X).

Lemma preserves_bind {A B} (m : M A) (k : A -> M B) :
  preserves obs m -> (∀ a, preserves obs (k a)) -> preserves obs (m ≫= k).
Proof.
  intros Hm Hk E s. rewrite run_bind. specialize (Hm E s).
  destruct (m E s) as [[a | e] s1]; simpl in *; [| done].
  rewrite Hk. done.
Qed.

Lemma preserves_ret {A} (a : A) : preserves obs (ret a).
Proof. done. Qed.

Lemma preserves_raise {A} e : preserves obs (@raise A e).
Proof. done. Qed.

Lemma preserves_lift {A} (r : result A) : preserves obs (lift r).
Proof. done. Qed.

Lemma preserves_ask {A} (f : env -> A) : preserves obs (ask f).
Proof. done. Qed.

Lemma preserves_compute {A} (f : env -> result A) : preserves obs (compute f).
Proof. done. Qed.

Lemma preserves_attr {A} name (f : deployer -> option A) :
  preserves obs (attr name f).
Proof. intros E s. unfold attr. by destruct (f (self s)). Qed.

Lemma preserves_try_except (body handler : M unit) :
  preserves obs body -> preserves obs handler ->
  preserves obs (try_except body handler).
Proof.
  intros Hb Hh E s. unfold try_except. specialize (Hb E s).
  destruct (body E s) as [[a | e] s1]; simpl in *; [done |].
  rewrite Hh. done.
Qed.
End Frame.

(** The record file is touched by [open_contr_info_w] and [json_dump]
    only. *)
Lemma file_emit e : preserves on_file (emit e).
Proof. done. Qed.
Lemma file_external {A} e (ans : env -> result A) : preserves on_file (external e ans).
Proof. done. Qed.
Lemma file_assign f : preserves on_file (assign f).
Proof. done. Qed.
Lemma file_read_file {A} p (f : env -> option A) : preserves on_file (read_file p f).
Proof. done. Qed.
Lemma file_read_contr_info : preserves on_file read_contr_info.
Proof. done. Qed.

(** An attribute of [self] is touched by assignments only. *)
Section FrameSelf.
Context {X : Type} (g : deployer -> X).

Lemma self_emit e : preserves (on_self g) (emit e).
Proof. done. Qed.
Lemma self_external {A} e (ans : env -> result A) :
  preserves (on_self g) (external e ans).
Proof. done. Qed.
Lemma self_read_file {A} p (f : env -> option A) :
  preserves (on_self g) (read_file p f).
Proof. done. Qed.
Lemma self_read_contr_info : preserves (on_self g) read_contr_info.
Proof. done. Qed.
Lemma self_open_contr_info_w : preserves (on_self g) open_contr_info_w.
Proof. done. Qed.
Lemma self_json_dump v : preserves (on_self g) (json_dump v).
Proof. done. Qed.
Lemma self_assign f : (∀ d, g (f d) = g d) -> preserves (on_self g) (assign f).
Proof. intros H E s. apply H. Qed.
End FrameSelf.

(** The calls of one kind in the trace grow only by calls of that kind. *)
Section FrameTrace.
Context {X : Type} (f : event -> option X).

Lemma on_trace_snoc s d c e :
  on_trace f (State d c (trace s ++ [e])) =
  on_trace f s ++ match f e with Some x => [x] | None => [] end.
Proof.
  unfold on_trace. simpl. rewrite omap_app. simpl. by destruct (f e).
Qed.

Lemma trace_skip s d c e :
  f e = None -> on_trace f (State d c (trace s ++ [e])) = on_trace f s.
Proof. intros H. rewrite on_trace_snoc, H. apply app_nil_r. Qed.

Lemma trace_emit e : f e = None -> preserves (on_trace f) (emit e).
Proof. intros H E s. by apply trace_skip. Qed.
Lemma trace_external {A} e (ans : env -> result A) :
  f e = None -> preserves (on_trace f) (external e ans).
Proof. intros H E s. by apply trace_skip. Qed.
Lemma trace_assign h : preserves (on_trace f) (assign h).
Proof. done. Qed.
Lemma trace_read_file {A} p (c : env -> option A) :
  (∀ q, f (EOpenRead q) = None) -> preserves (on_trace f) (read_file p c).
Proof. intros H E s. by apply trace_skip. Qed.
Lemma trace_read_contr_info :
  (∀ q, f (EOpenRead q) = None) -> preserves (on_trace f) read_contr_info.
Proof. intros H E s. by apply trace_skip. Qed.
Lemma trace_open_contr_info_w :
  (∀ q, f (EOpenWrite q) = None) -> preserves (on_trace f) open_contr_info_w.
Proof. intros H E s. by apply trace_skip. Qed.
Lemma trace_json_dump v :
  (∀ q, f (EJsonDump q) = None) -> preserves (on_trace f) (json_dump v).
Proof. intros H E s. by apply trace_skip. Qed.
End FrameTrace.

Create HintDb frame.
#[global] Hint Resolve preserves_ret preserves_raise preserves_lift preserves_ask
  preserves_compute preserves_attr
  file_emit file_external file_assign file_read_file file_read_contr_info
  self_emit self_external self_read_file self_read_contr_info
  self_open_contr_info_w self_json_dump self_assign
  trace_emit trace_external trace_assign trace_read_file trace_read_contr_info
  trace_open_contr_info_w trace_json_dump : frame.

Ltac unfold_calls :=
  unfold eth_gasPrice, eth_getBalance, w3_eth_contract, constructor_estimateGas,
    eth_getTransactionCount, constructor_buildTransaction, acct_sign_transaction,
    eth_sendRawTransaction, eth_waitForTransactionReceipt, solc_compile_standard,
    subprocess_Popen, time_sleep, ipfshttpclient_connect, client_add,
    subprocess_run_, client_close, new_ContractConnection, functions_transact,
    functions_call, py_hex, logging.

(** Walks through a computation, leaving the primitives to the rules. *)
Ltac frame :=
  repeat first
    [ apply preserves_bind; [| intros ?]
    | apply preserves_try_except
    | match goal with
      | |- preserves _ (match ?c with _ => _ end) => destruct c
      end
    | progress unfold_calls ];
  eauto with frame.

Ltac frame_of def := unfold def; frame.

(** ** The record file is left alone outside [write_contr_info] *)

Lemma file_check_balance : preserves on_file check_balance.
Proof. frame_of check_balance. Qed.

Lemma file__init__ : preserves on_file __init__.
Proof. frame_of __init__. Qed.

Lemma file_open_ipfs_connection : preserves on_file _open_ipfs_connection.
Proof. frame_of _open_ipfs_connection. Qed.

Lemma file_compile_contract : preserves on_file _compile_contract.
Proof. frame_of _compile_contract. Qed.

Lemma file_assign_ens : preserves on_file _assign_ens.
Proof. frame_of _assign_ens. Qed.

Lemma file_update_ens_content : preserves on_file _update_ens_content.
Proof.
  frame_of _update_ens_content.
Qed.

(** ** Running a computation forward *)

Lemma run_external {A B} e (ans : env -> result A) (k : A -> M B) E s a :
  ans E = Ret a ->
  (external e ans ≫= k) E s =
  k a E (State (self s) (contr_info_file s) (trace s ++ [e])).
Proof. intros H. rewrite run_bind. unfold external. by rewrite H. Qed.

Lemma run_attr {A B} name (f : deployer -> option A) (k : A -> M B) E s a :
  f (self s) = Some a -> (attr name f ≫= k) E s = k a E s.
Proof. intros H. rewrite run_bind. unfold attr. by rewrite H. Qed.

(** ** BalanceGuard *)

(** [check_balance], once the node has answered both reads. *)
Lemma check_balance_run E s pk B P :
  gasPrice E = Ret P -> _pubkey (self s) = Some pk -> getBalance E pk = Ret B ->
  check_balance E s =
  (if bool_decide (B < 600000 * P)
   then Raise (SystemExit insufficient_balance) else Ret tt,
   State (self s) (contr_info_file s) (trace s ++ [EGasPrice; EGetBalance pk])).
Proof.
  intros HP Hpk HB. unfold check_balance, eth_gasPrice, eth_getBalance.
  rewrite (run_external _ _ _ _ _ P HP).
  rewrite (run_attr _ _ _ _ _ pk) by exact Hpk.
  rewrite (run_external _ _ _ _ _ B) by exact HB.
  simpl. rewrite <- app_assoc. simpl.
  by destruct (bool_decide (B < 600000 * P)).
Qed.

(** [__init__] up to the balance check. *)
Lemma init_run E s pk :
  MakeW3 E = Ret pk ->
  __init__ E s =
  check_balance E
    (State (set_pubkey pk (set_current_chain (config_current_chain E) (self s)))
       (contr_info_file s) (trace s ++ [EMakeW3])).
Proof.
  intros H. unfold __init__. rewrite run_bind. simpl.
  rewrite run_bind. simpl.
  rewrite (run_external _ _ _ _ _ pk H). rewrite run_bind. reflexivity.
Qed.

(** C8.  Once the node has answered the gas price [P] and the balance [B],
    [check_balance] exits with the fatal message if and only if
    [B < 600000 * P] and returns otherwise; either way it has issued the
    two reads [gasPrice] and [getBalance] and nothing else, so no mutating
    call, and a run that is aborted there has issued nothing but the
    connection and the two reads and leaves the record file as it was. *)
Theorem check_balance_aborts_iff E s pk B P :
  gasPrice E = Ret P -> _pubkey (self s) = Some pk -> getBalance E pk = Ret B ->
  (fst (check_balance E s) = Raise (SystemExit insufficient_balance)
     ↔ B < 600000 * P) ∧
  (fst (check_balance E s) = Ret tt ↔ ¬ B < 600000 * P) ∧
  trace (snd (check_balance E s)) = trace s ++ [EGasPrice; EGetBalance pk] ∧
  on_trace mutating (snd (check_balance E s)) = on_trace mutating s ∧
  (MakeW3 E = Ret pk -> B < 600000 * P -> ∀ f,
     fst (run E f) = Raise (SystemExit insufficient_balance) ∧
     trace (snd (run E f)) = [EMakeW3; EGasPrice; EGetBalance pk] ∧
     contr_info_file (snd (run E f)) = f).
Proof.
  intros HP Hpk HB. rewrite (check_balance_run E s pk B P) by done. simpl.
  split; [| split; [| split; [| split]]].
  - case_bool_decide; split; (done || discriminate).
  - case_bool_decide; split; (done || discriminate).
  - reflexivity.
  - unfold on_trace. simpl. rewrite omap_app. simpl. apply app_nil_r.
  - intros Hw Hlt f. unfold run, main.
    rewrite run_bind, (init_run _ _ pk) by done.
    rewrite (check_balance_run _ _ pk B P) by done.
    by rewrite bool_decide_eq_true_2.
Qed.

Lemma check_balance_aborts_iff_witness :
  gasPrice Sample.poor = Ret 1 ∧
  _pubkey (self Sample.checking) = Some "0xAcc" ∧
  getBalance Sample.poor "0xAcc" = Ret 599999 ∧
  (fst (check_balance Sample.poor Sample.checking)
     = Raise (SystemExit insufficient_balance) ↔ 599999 < 600000 * 1) ∧
  trace (snd (check_balance Sample.poor Sample.checking))
    = trace Sample.checking ++ [EGasPrice; EGetBalance "0xAcc"].
Proof.
  pose proof (check_balance_aborts_iff Sample.poor Sample.checking "0xAcc"
                599999 1 eq_refl eq_refl eq_refl) as (H1 & _ & H3 & _).
  repeat split; solve [reflexivity | apply H1 | apply H3].
Defined.

(** ** TransactionSubmitter *)

(** An external call followed by steps that issue no call of the observed
    kind. *)
Lemma external_then {A B X} (f : event -> option X) e (ans : env -> result A)
    (k : A -> M B) E s :
  (∀ a, preserves (on_trace f) (k a)) ->
  on_trace f (snd ((external e ans ≫= k) E s)) =
  on_trace f s ++ match f e with Some x => [x] | None => [] end.
Proof.
  intros Hk. rewrite run_bind. unfold external.
  destruct (ans E) as [a | x]; simpl; [rewrite Hk |]; apply on_trace_snoc.
Qed.

(** C6.  When [_deploy] gets as far as the gas estimation and the node
    answers the estimate [g] (and the nonce [n]), the one transaction it
    builds carries the gas limit [g * 2]: [buildTransaction] is called once,
    with [{nonce: n, gas: 2 * g}]. *)
Theorem deploy_gas_limit E s a b pk g n :
  abi (self s) = Some a -> bytecode (self s) = Some b ->
  _pubkey (self s) = Some pk ->
  eth_contract E a b = Ret tt -> estimateGas E a b = Ret g ->
  getTransactionCount E pk = Ret n ->
  on_trace built (snd (_deploy E s)) =
  on_trace built s ++ [{| nonce := n; gas := 2 * g |}].
Proof.
  intros Ha Hb Hpk Hc Hg Hn. unfold _deploy.
  rewrite (run_attr _ _ _ _ _ a) by done.
  rewrite (run_attr _ _ _ _ _ b) by done.
  unfold w3_eth_contract, constructor_estimateGas, eth_getTransactionCount.
  rewrite (run_external _ _ _ _ _ tt) by done.
  rewrite (run_attr _ _ _ _ _ pk) by done.
  rewrite (run_external _ _ _ _ _ g) by done.
  rewrite (run_external _ _ _ _ _ n) by done.
  unfold constructor_buildTransaction.
  rewrite external_then by (intros; frame).
  unfold on_trace. simpl. rewrite !omap_app. simpl. rewrite !app_nil_r.
  do 3 f_equal. lia.
Qed.

Lemma deploy_gas_limit_witness :
  abi (self (Sample.compiled None)) = Some Sample.the_abi ∧
  bytecode (self (Sample.compiled None)) = Some "6080" ∧
  _pubkey (self (Sample.compiled None)) = Some "0xAcc" ∧
  eth_contract Sample.ropsten_up Sample.the_abi "6080" = Ret tt ∧
  estimateGas Sample.ropsten_up Sample.the_abi "6080" = Ret 100000 ∧
  getTransactionCount Sample.ropsten_up "0xAcc" = Ret 7 ∧
  on_trace built (snd (_deploy Sample.ropsten_up (Sample.compiled None))) =
    [{| nonce := 7; gas := 200000 |}].
Proof.
  do 6 (split; [reflexivity |]).
  exact (deploy_gas_limit Sample.ropsten_up (Sample.compiled None)
           Sample.the_abi "6080" "0xAcc" 100000 7
           eq_refl eq_refl eq_refl eq_refl eq_refl eq_refl).
Defined.

(** ** ContractRecordStore *)

(** Splits a run of [m ≫= k] into the run of [m] and, when [m] returned,
    the run of [k]. *)
Ltac invert_bind H :=
  apply bind_inv in H as [(? & H & ->) | (? & ? & ? & H)].

Tactic Notation "name_bind" hyp(H) "as" ident(a) ident(s1) ident(H1) :=
  apply bind_inv in H as [(? & H & ->) | (a & s1 & H1 & H)].

(** Turns the runs among the hypotheses into what they leave unchanged. *)
Ltac framed obs :=
  repeat match goal with
         | H : ?m ?E ?s = (_, _) |- _ =>
             apply (preserves_run obs) in H; [| solve [frame]]
         end.

(** What "saving contract data" does, by the content of the record file. *)
Lemma save_contract_data_run rc E s :
  save_contract_data rc E s =
  let p := get_contr_info_path E in
  let d := set_contr_address (contractAddress rc) (self s) in
  match contr_info_file s with
  | None =>
      (Raise (FileNotFoundError p),
       State (self s) None (trace s ++ [EOpenRead p]))
  | Some (Garbled raw) =>
      (Raise JSONDecodeError,
       State (self s) (Some (Garbled raw)) (trace s ++ [EOpenRead p]))
  | Some (JsonText v) =>
      match abi (self s), v with
      | None, _ =>
          (Raise (AttributeError "abi"),
           State d (Some (JsonText v)) (trace s ++ [EOpenRead p]))
      | Some a, JObj m =>
          (Ret tt,
           State d
             (Some (JsonText
                      (JObj (<[record_key := record_of a (contractAddress rc)]> m))))
             (trace s ++ [EOpenRead p; EOpenWrite p; EJsonDump p]))
      | Some a, _ =>
          (Raise TypeError,
           State d (Some (JsonText v)) (trace s ++ [EOpenRead p]))
      end
  end.
Proof.
  unfold save_contract_data, write_contr_info. rewrite run_bind.
  unfold read_contr_info.
  destruct (contr_info_file s) as [[raw | v] |]; try reflexivity.
  rewrite run_bind. simpl. rewrite run_bind. simpl. rewrite run_bind.
  unfold attr at 1. simpl.
  destruct (abi (self s)) as [a |]; [| by destruct v].
  rewrite run_bind. simpl.
  destruct v; try reflexivity.
  rewrite run_bind. simpl. rewrite run_bind. simpl.
  unfold json_dump. simpl. by rewrite <- !app_assoc.
Qed.

(** [_deploy] leaves the record file as it was, or has had the receipt
    confirmed and has merged the record of this deployment into it. *)
Lemma deploy_file E s r s' :
  _deploy E s = (r, s') ->
  (∃ e, r = Raise e ∧ contr_info_file s' = contr_info_file s) ∨
  ∃ rc a m,
    r = Ret tt ∧ confirmed E s' rc ∧ abi (self s') = Some a ∧
    contr_address (self s') = Some (contractAddress rc) ∧
    contr_info_file s = Some (JsonText (JObj m)) ∧
    contr_info_file s' =
      Some (JsonText (JObj (<[record_key := record_of a (contractAddress rc)]> m))).
Proof.
  intros H. unfold _deploy in H.
  do 9 (invert_bind H;
        [left; eexists; split; [done |]; framed on_file; unfold on_file in *;
         congruence |]).
  name_bind H as rc s1 Hwait;
    [left; eexists; split; [done |]; framed on_file; unfold on_file in *;
     congruence |].
  name_bind H as u s2 Hlog;
    [left; eexists; split; [done |]; framed on_file; unfold on_file in *;
     congruence |].
  assert (Hconf : ∀ s3, on_trace waited s3 = on_trace waited s2 -> confirmed E s3 rc).
  { intros s3 Hs3. unfold eth_waitForTransactionReceipt, external in Hwait.
    injection Hwait as Hrc <-. eexists. split; [| exact Hrc].
    apply (preserves_run (on_trace waited)) in Hlog; [| frame].
    rewrite Hs3, Hlog, on_trace_snoc. simpl. set_solver. }
  assert (Hfile : on_file s2 = on_file s) by (framed on_file; congruence).
  clear - H Hconf Hfile. unfold on_file in Hfile.
  name_bind H as v s3 Hsave; rewrite save_contract_data_run in *; simpl in *.
  - left. eexists. split; [done |]. rewrite <- Hfile.
    destruct (contr_info_file s2) as [[raw | v] |];
      [| destruct (abi (self s2)), v |]; by inversion H.
  - destruct (contr_info_file s2) as [[raw | [| | | | | | m]] |] eqn:Hf;
      destruct (abi (self s2)) as [a |] eqn:Ha; try discriminate.
    destruct v. injection Hsave as <-. right. exists rc, a, m.
    unfold attr in H. rewrite run_bind in H. simpl in H.
    injection H as <- <-. simpl. repeat split; try done.
    apply Hconf. unfold on_trace. simpl. rewrite !omap_app. simpl.
    by rewrite !app_nil_r.
Qed.

(** ** The orchestration *)

(** [_open_ipfs_connection] never raises: its [except] catches everything. *)
Lemma open_ipfs_connection_returns E s : fst (_open_ipfs_connection E s) = Ret tt.
Proof.
  unfold _open_ipfs_connection, try_except.
  match goal with
  | |- context [match ?body E s with _ => _ end] =>
      destruct (body E s) as [[[] | e] s1]
  end; reflexivity.
Qed.

(** The stages of a run: where it stopped, and the states in between. *)
Lemma main_inv E s r s' :
  main E s = (r, s') ->
  (∃ e, __init__ E s = (Raise e, s') ∧ r = Raise e) ∨
  ∃ s1 s2,
    __init__ E s = (Ret tt, s1) ∧ _open_ipfs_connection E s1 = (Ret tt, s2) ∧
    ((∃ e, _compile_contract E s2 = (Raise e, s') ∧ r = Raise e) ∨
     ∃ s3,
       _compile_contract E s2 = (Ret tt, s3) ∧
       ((∃ e, _deploy E s3 = (Raise e, s') ∧ r = Raise e) ∨
        ∃ s4, _deploy E s3 = (Ret tt, s4) ∧ _update_ens_content E s4 = (r, s'))).
Proof.
  intros H. unfold main, do_deploy in H.
  name_bind H as u1 s1 Hinit; [left; eauto |]. right. exists s1.
  pose proof (open_ipfs_connection_returns E s1) as Hopen.
  name_bind H as u2 s2 Hipfs; [rewrite H in Hopen; discriminate |].
  exists s2. destruct u1, u2. do 2 (split; [done |]).
  name_bind H as u3 s3 Hcomp; [left; eauto |]. right. exists s3.
  destruct u3. split; [done |].
  name_bind H as u4 s4 Hdep; [left; eauto |]. right. exists s4.
  by destruct u4.
Qed.

(** Over a whole run the record file is left as it was, or a receipt was
    confirmed and the record of the deployment was merged into it. *)
Lemma run_file E f :
  contr_info_file (snd (run E f)) = f ∨
  ∃ rc a m,
    confirmed E (snd (run E f)) rc ∧
    abi (self (snd (run E f))) = Some a ∧
    f = Some (JsonText (JObj m)) ∧
    contr_info_file (snd (run E f)) =
      Some (JsonText (JObj (<[record_key := record_of a (contractAddress rc)]> m))).
Proof.
  unfold run. destruct (main E (initial f)) as [r s'] eqn:H. simpl.
  apply main_inv in H
    as [(e & H1 & _) | (s1 & s2 & H1 & H2 & [(e & H3 & _) | (s3 & H3 & H4)])].
  - left. by framed on_file.
  - left. framed on_file. unfold on_file in *. simpl in *. congruence.
  - assert (Hs3 : contr_info_file s3 = f).
    { framed on_file. unfold on_file in *. simpl in *. congruence. }
    clear H1 H2 H3.
    assert (∃ r4 s4, _deploy E s3 = (r4, s4) ∧ on_file s' = on_file s4 ∧
              on_self abi s' = on_self abi s4 ∧
              on_trace waited s' = on_trace waited s4)
      as (r4 & s4 & Hd & Hf & Ha & Hw).
    { destruct H4 as [(e & H4 & _) | (s4 & H4 & H5)]; [by eauto 10 |].
      exists (Ret tt), s4. split; [done |].
      repeat split; eapply preserves_run; try exact H5; frame. }
    apply deploy_file in Hd
      as [(e & _ & Hd) | (rc & a & m & _ & (h & Hh & Hrc) & Habi & _ & Hold & Hnew)].
    + left. unfold on_file in *. congruence.
    + right. exists rc, a, m. unfold on_file, on_self in *.
      repeat split; try congruence.
      exists h. by rewrite Hw.
Qed.

(** A run that returns has had the receipt confirmed and has merged the
    record of the deployment into the record file, which held a JSON
    object. *)
Lemma run_returns E f :
  fst (run E f) = Ret tt ->
  ∃ rc a m,
    confirmed E (snd (run E f)) rc ∧
    f = Some (JsonText (JObj m)) ∧
    contr_info_file (snd (run E f)) =
      Some (JsonText (JObj (<[record_key := record_of a (contractAddress rc)]> m))).
Proof.
  unfold run. destruct (main E (initial f)) as [r s'] eqn:H. simpl. intros ->.
  apply main_inv in H
    as [(e & _ & ?) | (s1 & s2 & H1 & H2 & [(e & _ & ?) | (s3 & H3 & H4)])];
    try discriminate.
  destruct H4 as [(e & _ & ?) | (s4 & H4 & H5)]; [discriminate |].
  assert (Hs3 : contr_info_file s3 = f).
  { framed on_file. unfold on_file in *. simpl in *. congruence. }
  apply deploy_file in H4
    as [(e & ? & _) | (rc & a & m & _ & (h & Hh & Hrc) & _ & _ & Hold & Hnew)];
    [discriminate |].
  assert (Hf : on_file s' = on_file s4) by (eapply preserves_run; [| exact H5]; frame).
  assert (Hw : on_trace waited s' = on_trace waited s4)
    by (eapply preserves_run; [| exact H5]; frame).
  exists rc, a, m. unfold on_file in *. repeat split; try congruence.
  exists h. by rewrite Hw.
Qed.







(** Two successive runs, for two deployments with the receipts ["0xA"]
    and ["0xB"], on a record file that another contract has an entry in:
    the file ends with that entry as it was and the record of the second
    deployment, and the record of the first is gone. *)
Example two_runs_overwrite :
  fst (run (Sample.with_receipt Sample.receipt_A Sample.rich)
         (Some (JsonText (JObj Sample.huge_map)))) = Ret tt ∧
  contr_info_file
    (snd (run (Sample.with_receipt Sample.receipt_A Sample.rich)
            (Some (JsonText (JObj Sample.huge_map))))) =
    Some (JsonText (JObj (<[record_key := record_of Sample.the_abi "0xA"]>
                            Sample.huge_map))) ∧
  contr_info_file
    (snd (run (Sample.with_receipt Sample.receipt_B Sample.rich)
            (contr_info_file
               (snd (run (Sample.with_receipt Sample.receipt_A Sample.rich)
                       (Some (JsonText (JObj Sample.huge_map)))))))) =
    Some (JsonText (JObj (<[record_key := record_of Sample.the_abi "0xB"]>
                            Sample.huge_map))) ∧
  record_of Sample.the_abi "0xA" ≠ record_of Sample.the_abi "0xB" ∧
  size (<[record_key := record_of Sample.the_abi "0xB"]> Sample.huge_map) = 2%nat.
Proof.
  split; [vm_compute; reflexivity |]. split; [vm_compute; reflexivity |].
  split; [vm_compute; reflexivity |]. split; [| vm_compute; reflexivity].
  intros H. apply (f_equal (λ j, getitem j "address")) in H. vm_compute in H.
  discriminate H.
Qed.





(** C5, as the code has it.  The update does not treat an absent or
    unparseable record file as an empty mapping: on an absent file the
    read raises [FileNotFoundError], on an unparseable one [json.loads]
    raises [JSONDecodeError]; nothing is written, the file stays absent or
    unparseable, and a run started on such a file does not return. *)
Theorem update_fails_on_absent_or_corrupt rc E s :
  (contr_info_file s = None ->
   fst (save_contract_data rc E s) = Raise (FileNotFoundError (get_contr_info_path E)) ∧
   contr_info_file (snd (save_contract_data rc E s)) = None) ∧
  (∀ raw, contr_info_file s = Some (Garbled raw) ->
   fst (save_contract_data rc E s) = Raise JSONDecodeError ∧
   contr_info_file (snd (save_contract_data rc E s)) = Some (Garbled raw)) ∧
  (∀ f, f = None ∨ (∃ raw, f = Some (Garbled raw)) ->
   fst (run E f) ≠ Ret tt ∧ contr_info_file (snd (run E f)) = f).
Proof.
  split; [| split].
  - intros Hf. rewrite save_contract_data_run. simpl. by rewrite Hf.
  - intros raw Hf. rewrite save_contract_data_run. simpl. by rewrite Hf.
  - intros f Hf. split.
    + intros Hr. apply run_returns in Hr as (_ & _ & m & _ & Hm & _).
      destruct Hf as [-> | (raw & ->)]; discriminate.
    + destruct (run_file E f) as [? | (_ & _ & m & _ & _ & Hm & _)]; [done |].
      destruct Hf as [-> | (raw & ->)]; discriminate.
Qed.

(** The claim C5 fails on the code: with every collaborator answering and
    the record file absent, the run raises [FileNotFoundError] after the
    receipt and leaves no file; with an unparseable file it raises
    [JSONDecodeError] and leaves the file as it was. *)
Lemma absent_record_file_is_fatal :
  fst (run Sample.rich None) = Raise (FileNotFoundError "data/contr_info.json") ∧
  fst (run Sample.rich None) ≠ Ret tt ∧
  contr_info_file (snd (run Sample.rich None)) = None ∧
  on_trace waited (snd (run Sample.rich None)) = ["0xhash"] ∧
  fst (run Sample.rich (Some (Garbled "{"))) = Raise JSONDecodeError ∧
  contr_info_file (snd (run Sample.rich (Some (Garbled "{")))) = Some (Garbled "{").
Proof. vm_compute. repeat split; (reflexivity || discriminate). Qed.

(** C4, as the code has it.  The mapping is written back in place: the
    [open] in mode ["w+"] empties the file, then [json.dump] fills it.
    Between the two the file is the empty text, which [json.loads]
    rejects; after the [with] block it holds the complete new mapping.
    Every update that gets to write goes through these three contents:
    the old mapping, the empty text, the merged mapping. *)
Theorem write_truncates_then_dumps contr_info E s :
  write_states contr_info E s =
    [contr_info_file s; Some (Garbled ""); Some (JsonText contr_info)] ∧
  write_contr_info contr_info E s =
    json_dump contr_info E (snd (open_contr_info_w E s)) ∧
  fst (write_contr_info contr_info E s) = Ret tt ∧
  contr_info_file (snd (write_contr_info contr_info E s)) = Some (JsonText contr_info) ∧
  json_loads (Garbled "") = Raise JSONDecodeError ∧
  (∀ rc a m,
     abi (self s) = Some a -> contr_info_file s = Some (JsonText (JObj m)) ->
     ∃ s1,
       save_contract_data rc E s =
         write_contr_info (JObj (<[record_key := record_of a (contractAddress rc)]> m))
           E s1 ∧
       write_states (JObj (<[record_key := record_of a (contractAddress rc)]> m)) E s1 =
         [Some (JsonText (JObj m)); Some (Garbled "");
          Some (JsonText (JObj (<[record_key := record_of a (contractAddress rc)]> m)))]).
Proof.
  do 5 (split; [reflexivity |]).
  intros rc a m Ha Hf.
  exists (State (set_contr_address (contractAddress rc) (self s)) (contr_info_file s)
            (trace s ++ [EOpenRead (get_contr_info_path E)])).
  split.
  - rewrite save_contract_data_run. simpl. rewrite Hf, Ha.
    unfold write_contr_info, open_contr_info_w, json_dump. rewrite run_bind. simpl.
    by rewrite <- !app_assoc.
  - unfold write_states. simpl. by rewrite Hf.
Qed.

(** The claim C4 fails on the code: while the record of a deployment is
    written over the empty mapping, the file goes through the empty text,
    which is neither the old content nor the new. *)
Lemma write_is_not_atomic :
  Some (Garbled "") ∈
    write_states (JObj {[record_key := record_of Sample.the_abi "0xA"]})
      Sample.rich (Sample.compiled Sample.empty_store) ∧
  ¬ ∀ c,
      c ∈ write_states (JObj {[record_key := record_of Sample.the_abi "0xA"]})
            Sample.rich (Sample.compiled Sample.empty_store) ->
      c = Sample.empty_store ∨
      c = Some (JsonText (JObj {[record_key := record_of Sample.the_abi "0xA"]})).
Proof.
  assert (H : Some (Garbled "") ∈
    write_states (JObj {[record_key := record_of Sample.the_abi "0xA"]})
      Sample.rich (Sample.compiled Sample.empty_store)).
  { unfold write_states. simpl. set_solver. }
  split; [exact H |].
  intros Hall. destruct (Hall _ H) as [Hc | Hc]; discriminate.
Qed.

(** ** ContentPublisher *)

(** The client that [_open_ipfs_connection] leaves in [self._client]. *)
Lemma open_ipfs_connection_client E s :
  _client (self (snd (_open_ipfs_connection E s))) =
  Some match Popen E ["ipfs"; "init"], Popen E ["ipfs"; "daemon"],
             ipfs_connect E "/ip4/127.0.0.1/tcp/5001/http" with
       | Ret _, Ret _, Ret _ => IpfsClient
       | _, _, _ => PyNone
       end.
Proof.
  unfold _open_ipfs_connection, try_except, subprocess_Popen,
    ipfshttpclient_connect, external, mbind, M_bind, bind.
  simpl.
  destruct (Popen E ["ipfs"; "init"]); [| reflexivity].
  destruct (Popen E ["ipfs"; "daemon"]); [| reflexivity].
  destruct (ipfs_connect E _); reflexivity.
Qed.

(** Without a client the publication returns at once. *)
Lemma publish_without_client E s :
  _client (self s) = Some PyNone ->
  publish_contr_info E s =
  (Ret tt, State (set_ipfs_hash "" (self s)) (contr_info_file s) (trace s)).
Proof.
  intros Hc. unfold publish_contr_info. rewrite run_bind. simpl.
  rewrite (run_attr _ _ _ _ _ PyNone) by exact Hc. reflexivity.
Qed.

(** With a client the record file is added, and the answer decides. *)
Lemma publish_with_client E s h :
  _client (self s) = Some IpfsClient ->
  ipfs_add E (get_contr_info_path E) = Ret h ->
  publish_contr_info E s =
  (Ret tt,
   State (set_ipfs_hash h (set_ipfs_hash "" (self s))) (contr_info_file s)
     (trace s ++ [EIpfsAdd (get_contr_info_path E); ELog INFO (MsgIpfsHash h);
                  ELog INFO (MsgCheckAbi h)])).
Proof.
  intros Hc Hh. unfold publish_contr_info. rewrite run_bind. simpl.
  rewrite (run_attr _ _ _ _ _ IpfsClient) by exact Hc.
  rewrite run_bind. simpl. unfold client_add.
  rewrite (run_external _ _ _ _ _ h) by exact Hh.
  rewrite run_bind. simpl. rewrite run_bind. simpl.
  unfold logging, emit. simpl. by rewrite <- !app_assoc.
Qed.

(** C9.  A failed connection attempt (starting the daemon or connecting
    raised) leaves [self._client] at [None]; with [self._client] at
    [None] the publication returns at once with [ipfs_hash] at [""],
    having issued no call at all, and [_update_ens_content] as a whole
    issues no [add] either; with a connected client the file is added and
    the identifier that the content store answers becomes [ipfs_hash]. *)
Theorem publish_gate E s :
  (∀ e, Popen E ["ipfs"; "init"] = Raise e ∨ Popen E ["ipfs"; "daemon"] = Raise e ∨
        ipfs_connect E "/ip4/127.0.0.1/tcp/5001/http" = Raise e ->
        _client (self (snd (_open_ipfs_connection E s))) = Some PyNone) ∧
  (_client (self s) = Some PyNone ->
   publish_contr_info E s =
     (Ret tt, State (set_ipfs_hash "" (self s)) (contr_info_file s) (trace s)) ∧
   ipfs_hash (self (snd (_update_ens_content E s))) = Some "" ∧
   on_trace ipfs_added (snd (_update_ens_content E s)) = on_trace ipfs_added s) ∧
  (_client (self s) = Some IpfsClient ->
   ∀ h, ipfs_add E (get_contr_info_path E) = Ret h ->
        fst (publish_contr_info E s) = Ret tt ∧
        ipfs_hash (self (snd (publish_contr_info E s))) = Some h ∧
        on_trace ipfs_added (snd (publish_contr_info E s)) =
          on_trace ipfs_added s ++ [get_contr_info_path E]).
Proof.
  split; [| split].
  - intros e He. rewrite open_ipfs_connection_client.
    destruct He as [-> | [-> | ->]]; [done | |].
    + by destruct (Popen E ["ipfs"; "init"]).
    + by destruct (Popen E ["ipfs"; "init"]), (Popen E ["ipfs"; "daemon"]).
  - intros Hc. pose proof (publish_without_client E s Hc) as Hp.
    split; [exact Hp |].
    unfold _update_ens_content. rewrite run_bind, Hp.
    match goal with
    | |- context [(?m ≫= ?k) E ?s1] =>
        assert (Hh : preserves (on_self ipfs_hash) (m ≫= k)) by frame;
        assert (Ha : preserves (on_trace ipfs_added) (m ≫= k)) by frame;
        specialize (Hh E s1); specialize (Ha E s1)
    end.
    split; [exact Hh | exact Ha].
  - intros Hc h Hh. rewrite (publish_with_client E s h Hc Hh). simpl.
    repeat split. unfold on_trace. simpl. by rewrite omap_app.
Qed.

(** ** NameBinder *)

(** Adds to the hypotheses what their runs leave unchanged, keeping the
    runs. *)
Ltac observe obs :=
  repeat match goal with
         | H : ?m ?E ?s = (?r, ?s1) |- _ =>
             lazymatch goal with
             | _ : obs s1 = obs s |- _ => fail
             | _ => idtac
             end;
             pose proof (preserves_run obs m E s r s1 ltac:(solve [frame]) H)
         end.

Lemma shutdown_with_client E s s' :
  _client (self s) = Some IpfsClient ->
  shutdown_ipfs E s = (Ret tt, s') ->
  trace s' = trace s ++ [ESubprocessRun ["ipfs"; "shutdown"]; EIpfsClose].
Proof.
  intros Hc H. unfold shutdown_ipfs in H.
  rewrite (run_attr _ _ _ _ _ IpfsClient) in H by exact Hc.
  apply bind_ret_inv in H as (u & s1 & H1 & H2).
  unfold subprocess_run_, client_close, external in *.
  injection H1 as _ <-. injection H2 as _ <-. simpl. by rewrite <- app_assoc.
Qed.

(** C3, as the code has it.  A failure of the name binding is not caught:
    when [_assign_ens] raises on the test network, [_update_ens_content]
    raises the same exception from the same state, so neither
    [ipfs shutdown] nor [client.close()] is issued and the record file
    keeps what [_deploy] wrote.  The content channel is closed when
    [_update_ens_content] returns: then, with a connected client, it has
    issued the shutdown and the close, in this order. *)
Theorem ens_failure_skips_cleanup E s s1 s2 e :
  publish_contr_info E s = (Ret tt, s1) ->
  current_chain (self s1) = Some "ropsten" ->
  _assign_ens E s1 = (Raise e, s2) ->
  _update_ens_content E s = (Raise e, s2) ∧
  on_trace closing s2 = on_trace closing s ∧
  contr_info_file s2 = contr_info_file s ∧
  (∀ s0, _client (self s0) = Some IpfsClient ->
         fst (_update_ens_content E s0) = Ret tt ->
         on_trace closing (snd (_update_ens_content E s0)) =
         on_trace closing s0 ++ [ESubprocessRun ["ipfs"; "shutdown"]; EIpfsClose]).
Proof.
  intros Hpub Hchain Hens. split; [| split; [| split]].
  - unfold _update_ens_content. rewrite run_bind, Hpub, run_bind.
    unfold assign_ens_on_ropsten.
    rewrite (run_attr _ _ _ _ _ "ropsten") by exact Hchain.
    rewrite bool_decide_eq_true_2 by done. by rewrite Hens.
  - observe (on_trace closing). congruence.
  - observe on_file. unfold on_file in *. congruence.
  - intros s0 Hc Hret.
    destruct (_update_ens_content E s0) as [r s'] eqn:Hrun. simpl in *. subst r.
    unfold _update_ens_content in Hrun.
    apply bind_ret_inv in Hrun as (u1 & sa & Ha & Hrun).
    apply bind_ret_inv in Hrun as (u2 & sb & Hb & Hrun).
    assert (Hcb : _client (self sb) = Some IpfsClient).
    { observe (on_self _client). unfold on_self in *. congruence. }
    apply (shutdown_with_client E sb s' Hcb) in Hrun.
    observe (on_trace closing).
    unfold on_trace in *. rewrite Hrun, omap_app. simpl. congruence.
Qed.

Lemma ens_failure_skips_cleanup_witness :
  publish_contr_info Sample.ens_rejects Sample.deployed =
    (Ret tt, snd (publish_contr_info Sample.ens_rejects Sample.deployed)) ∧
  current_chain (self (snd (publish_contr_info Sample.ens_rejects Sample.deployed))) =
    Some "ropsten" ∧
  _assign_ens Sample.ens_rejects
    (snd (publish_contr_info Sample.ens_rejects Sample.deployed)) =
    (Raise (ExternalError "transaction reverted"),
     snd (_assign_ens Sample.ens_rejects
            (snd (publish_contr_info Sample.ens_rejects Sample.deployed)))) ∧
  _update_ens_content Sample.ens_rejects Sample.deployed =
    (Raise (ExternalError "transaction reverted"),
     snd (_assign_ens Sample.ens_rejects
            (snd (publish_contr_info Sample.ens_rejects Sample.deployed)))) ∧
  on_trace closing
    (snd (_assign_ens Sample.ens_rejects
            (snd (publish_contr_info Sample.ens_rejects Sample.deployed)))) =
  on_trace closing Sample.deployed.
Proof.
  do 3 (split; [reflexivity |]).
  pose proof (ens_failure_skips_cleanup Sample.ens_rejects Sample.deployed
                (snd (publish_contr_info Sample.ens_rejects Sample.deployed))
                (snd (_assign_ens Sample.ens_rejects
                   (snd (publish_contr_info Sample.ens_rejects Sample.deployed))))
                (ExternalError "transaction reverted")
                eq_refl eq_refl eq_refl) as (H1 & H2 & _).
  split; [exact H1 | exact H2].
Defined.

(** The claim C3 fails on the code: on the test network, with the IPFS
    client connected and the ENS registry rejecting its first transaction,
    the run ends with that exception instead of returning, and no
    [ipfs shutdown] and no [client.close()] has been issued although the
    client is connected. *)
Lemma ens_failure_ends_the_run :
  fst (run Sample.ens_rejects Sample.empty_store) =
    Raise (ExternalError "transaction reverted") ∧
  fst (run Sample.ens_rejects Sample.empty_store) ≠ Ret tt ∧
  _client (self (snd (run Sample.ens_rejects Sample.empty_store))) = Some IpfsClient ∧
  on_trace transacted (snd (run Sample.ens_rejects Sample.empty_store)) =
    [("ropsten_ens_registry", "setSubnodeOwner")] ∧
  on_trace closing (snd (run Sample.ens_rejects Sample.empty_store)) = [].
Proof. vm_compute. repeat split; (reflexivity || discriminate). Qed.

Lemma attr_inv {A} name (f : deployer -> option A) E s a s1 :
  attr name f E s = (Ret a, s1) -> f (self s) = Some a ∧ s1 = s.
Proof.
  unfold attr. destruct (f (self s)); intros H; [| discriminate].
  by injection H as -> ->.
Qed.

Lemma transact_trace c m args E s r s1 :
  functions_transact c m args E s = (r, s1) ->
  on_trace transacted s1 = on_trace transacted s ++ [(c, m)].
Proof.
  unfold functions_transact, external. intros H. injection H as _ <-.
  exact (on_trace_snoc transacted s _ _ (ETransact c m args)).
Qed.

Lemma new_ContractConnection_name name E s x s1 :
  new_ContractConnection name E s = (Ret x, s1) -> x = name.
Proof.
  unfold new_ContractConnection, external. intros H. injection H as H _.
  destruct (ContractConnection E name); [by injection H | discriminate].
Qed.

Ltac invert_ret H := apply bind_ret_inv in H as (? & ? & ? & H).

(** The content pointer is set when a client is connected, and only
    then. *)
Lemma set_contenthash_trace (c : client) resolver subnode E s u s' :
  match c with
  | PyNone => ret ()
  | IpfsClient =>
      h ← attr "ipfs_hash" ipfs_hash;
      chash ← compute (λ E : env, content_hash_encode E "ipfs-ns" h);
      functions_transact resolver "setContenthash" [VBytes subnode; VStr chash]
  end E s = (Ret u, s') ->
  on_trace transacted s' =
  on_trace transacted s ++
  match c with
  | IpfsClient => [(resolver, "setContenthash")]
  | PyNone => []
  end.
Proof.
  intros H. destruct c.
  - injection H as _ <-. by rewrite app_nil_r.
  - repeat invert_ret H. apply transact_trace in H.
    framed (on_trace transacted). congruence.
Qed.

(** The transactions of a name binding that returns. *)
Lemma assign_ens_transacts E s s' c :
  _client (self s) = Some c ->
  _assign_ens E s = (Ret tt, s') ->
  on_trace transacted s' =
  on_trace transacted s ++
  [("ropsten_ens_registry", "setSubnodeOwner");
   ("ropsten_ens_registry", "setResolver");
   ("ropsten_ens_resolver", "setAddr");
   ("ropsten_ens_resolver", "setName")] ++
  match c with
  | IpfsClient => [("ropsten_ens_resolver", "setContenthash")]
  | PyNone => []
  end.
Proof.
  intros Hc H. unfold _assign_ens in H. cbv zeta in H.
  repeat invert_ret H.
  repeat match goal with
         | H : new_ContractConnection _ _ _ = (Ret ?x, _) |- _ =>
             pose proof (new_ContractConnection_name _ _ _ _ _ H); subst x
         end.
  match goal with
  | H1 : attr "_client" _client _ ?a = (Ret ?c1, _),
    H2 : attr "_client" _client _ ?b = (Ret ?c2, _) |- _ =>
      assert (c1 = c ∧ c2 = c) as [-> ->];
      [ pose proof (attr_inv _ _ _ _ _ _ H1) as [? _];
        pose proof (attr_inv _ _ _ _ _ _ H2) as [? _];
        observe (on_self _client); unfold on_self in *; split; congruence |]
  end.
  match goal with
  | H : match c with PyNone => ret () | IpfsClient => _ end _ _ = _ |- _ =>
      apply set_contenthash_trace in H
  end.
  repeat match goal with
         | H : functions_transact _ _ _ _ _ = _ |- _ => apply transact_trace in H
         end.
  framed (on_trace transacted).
  repeat match goal with
         | H : on_trace transacted _ = _ |- _ => rewrite H; clear H
         end.
  rewrite <- !app_assoc. reflexivity.
Qed.

(** Off the test network the gate lets nothing through. *)
Lemma gate_closed E s chain :
  current_chain (self s) = Some chain -> chain ≠ "ropsten" ->
  assign_ens_on_ropsten E s = (Ret tt, s).
Proof.
  intros Hchain Hne. unfold assign_ens_on_ropsten.
  rewrite (run_attr _ _ _ _ _ chain) by exact Hchain.
  by rewrite bool_decide_eq_false_2.
Qed.

Lemma update_ens_content_off E s chain :
  current_chain (self s) = Some chain -> chain ≠ "ropsten" ->
  on_trace ens_call (snd (_update_ens_content E s)) = on_trace ens_call s.
Proof.
  intros Hchain Hne. unfold _update_ens_content. rewrite run_bind.
  destruct (publish_contr_info E s) as [[[] | e] s1] eqn:Hpub; simpl.
  - assert (Hchain1 : current_chain (self s1) = Some chain).
    { observe (on_self current_chain). unfold on_self in *. congruence. }
    rewrite run_bind, (gate_closed E s1 chain) by done.
    framed (on_trace ens_call).
    assert (Hs : preserves (on_trace ens_call) shutdown_ipfs) by frame.
    rewrite Hs. done.
  - by framed (on_trace ens_call).
Qed.

(** [__init__] sets the chain before anything can fail. *)
Lemma init_chain E s :
  current_chain (self (snd (__init__ E s))) = Some (config_current_chain E).
Proof.
  unfold __init__. rewrite run_bind. simpl. rewrite run_bind. simpl.
  match goal with
  | |- context [(?m ≫= ?k) E ?s1] =>
      assert (Hk : preserves (on_self current_chain) (m ≫= k)) by frame;
      specialize (Hk E s1)
  end.
  exact Hk.
Qed.

(** C7.  With [current_chain] other than ["ropsten"],
    [_update_ens_content] issues no call to the ENS registry or resolver,
    and a whole run on such a chain issues none.  On ["ropsten"], when
    [_update_ens_content] returns, it has sent [setSubnodeOwner] and
    [setResolver] to the registry, then [setAddr] and [setName] to the
    resolver, then [setContenthash] when a client is connected and only
    then. *)
Theorem name_binding_gate E s chain :
  current_chain (self s) = Some chain ->
  (chain ≠ "ropsten" ->
   on_trace ens_call (snd (_update_ens_content E s)) = on_trace ens_call s) ∧
  (chain = "ropsten" -> fst (_update_ens_content E s) = Ret tt ->
   ∃ c, _client (self s) = Some c ∧
        on_trace transacted (snd (_update_ens_content E s)) =
        on_trace transacted s ++
        [("ropsten_ens_registry", "setSubnodeOwner");
         ("ropsten_ens_registry", "setResolver");
         ("ropsten_ens_resolver", "setAddr");
         ("ropsten_ens_resolver", "setName")] ++
        match c with
        | IpfsClient => [("ropsten_ens_resolver", "setContenthash")]
        | PyNone => []
        end) ∧
  (config_current_chain E ≠ "ropsten" ->
   ∀ f, on_trace ens_call (snd (run E f)) = []).
Proof.
  intros Hchain. split; [| split].
  - intros Hne. by apply (update_ens_content_off E s chain).
  - intros -> Hret.
    destruct (_update_ens_content E s) as [r s'] eqn:Hrun. simpl in *. subst r.
    unfold _update_ens_content in Hrun.
    apply bind_ret_inv in Hrun as ([] & sa & Hpub & Hrun).
    apply bind_ret_inv in Hrun as ([] & sb & Hgate & Hshut).
    assert (Hchain1 : current_chain (self sa) = Some "ropsten").
    { observe (on_self current_chain). unfold on_self in *. congruence. }
    unfold assign_ens_on_ropsten in Hgate.
    rewrite (run_attr _ _ _ _ _ "ropsten") in Hgate by exact Hchain1.
    rewrite bool_decide_eq_true_2 in Hgate by done.
    unfold publish_contr_info in Hpub.
    apply bind_ret_inv in Hpub as ([] & s0 & Hset & Hpub).
    apply bind_ret_inv in Hpub as (c & s0' & Hattr & Hpub).
    apply attr_inv in Hattr as [Hc0 ->].
    injection Hset as <-. simpl in Hc0.
    exists c. split; [exact Hc0 |].
    assert (Hca : _client (self sa) = Some c).
    { observe (on_self _client). unfold on_self in *. simpl in *. congruence. }
    apply (assign_ens_transacts E sa sb c Hca) in Hgate.
    framed (on_trace transacted). unfold on_trace in *. simpl in *. congruence.
  - intros Hne f. unfold run.
    destruct (main E (initial f)) as [r s'] eqn:H. simpl.
    pose proof (init_chain E (initial f)) as Hinit.
    apply main_inv in H
      as [(e & H1 & _) | (s1 & s2 & H1 & H2 & [(e & H3 & _) | (s3 & H3 & H4)])].
    + by framed (on_trace ens_call).
    + framed (on_trace ens_call). unfold on_trace in *. simpl in *. congruence.
    + rewrite H1 in Hinit. simpl in Hinit.
      destruct H4 as [(e & H4 & _) | (s4 & H4 & H5)].
      * framed (on_trace ens_call). unfold on_trace in *. simpl in *. congruence.
      * assert (Hchain4 : current_chain (self s4) = Some (config_current_chain E)).
        { observe (on_self current_chain). unfold on_self in *. congruence. }
        pose proof (update_ens_content_off E s4 _ Hchain4 Hne) as Hoff.
        rewrite H5 in Hoff. simpl in Hoff.
        framed (on_trace ens_call). unfold on_trace in *. simpl in *. congruence.
Qed.

Lemma name_binding_gate_witness :
  current_chain (self Sample.deployed) = Some "ropsten" ∧
  ∃ c, _client (self Sample.deployed) = Some c ∧
       on_trace transacted (snd (_update_ens_content Sample.ropsten_up Sample.deployed)) =
       on_trace transacted Sample.deployed ++
       [("ropsten_ens_registry", "setSubnodeOwner");
        ("ropsten_ens_registry", "setResolver");
        ("ropsten_ens_resolver", "setAddr");
        ("ropsten_ens_resolver", "setName")] ++
       match c with
       | IpfsClient => [("ropsten_ens_resolver", "setContenthash")]
       | PyNone => []
       end.
Proof.
  split; [reflexivity |].
  exact (proj1 (proj2 (name_binding_gate Sample.ropsten_up Sample.deployed
                         "ropsten" eq_refl)) eq_refl eq_refl).
Defined.

(** ** End-to-end scenarios *)

(** Sufficient balance, no IPFS daemon, not the test network: the record
    is merged into the store, no ENS call is made, nothing is added to
    IPFS. *)
Example scenario_A :
  fst (run Sample.rich (Some (JsonText Sample.other_record))) = Ret tt ∧
  contr_info_file (snd (run Sample.rich (Some (JsonText Sample.other_record)))) =
    Some (JsonText (JObj (<[record_key := record_of Sample.the_abi "0xc0ffee"]>
                            Sample.other_map))) ∧
  on_trace ens_call (snd (run Sample.rich (Some (JsonText Sample.other_record)))) = [] ∧
  on_trace ipfs_added (snd (run Sample.rich (Some (JsonText Sample.other_record)))) = [] ∧
  on_trace built (snd (run Sample.rich (Some (JsonText Sample.other_record)))) =
    [{| nonce := 7; gas := 200000 |}].
Proof. vm_compute. repeat split. Qed.

(** The test network with the IPFS daemon up: the five ENS transactions
    are sent and the content channel is closed. *)
Example scenario_B :
  fst (run Sample.ropsten_up Sample.empty_store) = Ret tt ∧
  on_trace transacted (snd (run Sample.ropsten_up Sample.empty_store)) =
    [("ropsten_ens_registry", "setSubnodeOwner");
     ("ropsten_ens_registry", "setResolver");
     ("ropsten_ens_resolver", "setAddr");
     ("ropsten_ens_resolver", "setName");
     ("ropsten_ens_resolver", "setContenthash")] ∧
  on_trace ipfs_added (snd (run Sample.ropsten_up Sample.empty_store)) =
    ["data/contr_info.json"] ∧
  on_trace closing (snd (run Sample.ropsten_up Sample.empty_store)) =
    [ESubprocessRun ["ipfs"; "shutdown"]; EIpfsClose].
Proof. vm_compute. repeat split. Qed.

(** Insufficient balance: the run stops before compilation and the store
    is as it was. *)
Example scenario_C :
  fst (run Sample.poor Sample.empty_store) = Raise (SystemExit insufficient_balance) ∧
  trace (snd (run Sample.poor Sample.empty_store)) =
    [EMakeW3; EGasPrice; EGetBalance "0xAcc"] ∧
  contr_info_file (snd (run Sample.poor Sample.empty_store)) = Sample.empty_store ∧
  ∀ rc, ¬ confirmed Sample.poor (snd (run Sample.poor Sample.empty_store)) rc.
Proof.
  repeat split; try (vm_compute; reflexivity).
  intros rc (h & Hh & _). vm_compute in Hh. by apply elem_of_nil in Hh.
Qed.

(** The compiler fails, or the node rejects the transaction: the run ends
    with that exception, no receipt is waited for, and the store is as it
    was. *)
Example scenario_fatal_before_deployed :
  fst (run Sample.solc_fails (Some (JsonText Sample.other_record))) =
    Raise (ExternalError "solc failed") ∧
  on_trace waited (snd (run Sample.solc_fails (Some (JsonText Sample.other_record)))) = [] ∧
  contr_info_file (snd (run Sample.solc_fails (Some (JsonText Sample.other_record)))) =
    Some (JsonText Sample.other_record) ∧
  fst (run Sample.node_rejects (Some (JsonText Sample.other_record))) =
    Raise (ExternalError "nonce too low") ∧
  on_trace waited (snd (run Sample.node_rejects (Some (JsonText Sample.other_record)))) = [] ∧
  contr_info_file (snd (run Sample.node_rejects (Some (JsonText Sample.other_record)))) =
    Some (JsonText Sample.other_record).
Proof. vm_compute. repeat split. Qed.

(** * Further properties of the script *)

(** ** Inversion of the primitives *)

Lemma external_inv {A} e (ans : env -> result A) E s r s1 :
  external e ans E s = (r, s1) ->
  ans E = r ∧ s1 = State (self s) (contr_info_file s) (trace s ++ [e]).
Proof. unfold external. intros H. by injection H as -> <-. Qed.

Lemma lift_inv {A} (r : result A) E s a s1 :
  lift r E s = (Ret a, s1) -> r = Ret a ∧ s1 = s.
Proof. unfold lift. intros H. by injection H as -> ->. Qed.

Lemma getitem_inv obj key v :
  getitem obj key = Ret v -> ∃ m, obj = JObj m ∧ m !! key = Some v.
Proof.
  destruct obj as [| | | | | | m]; try discriminate. simpl.
  destruct (m !! key) as [w |] eqn:Hw; [| discriminate].
  intros H. injection H as <-. eauto.
Qed.

Lemma setitem_inv obj key v r :
  setitem obj key v = Ret r -> ∃ m, obj = JObj m ∧ r = JObj (<[key := v]> m).
Proof.
  destruct obj as [| | | | | | m]; try discriminate. simpl.
  intros H. injection H as <-. eauto.
Qed.

Lemma json_loads_inv t v : json_loads t = Ret v -> t = JsonText v.
Proof. destruct t; [discriminate |]. simpl. by intros [= ->]. Qed.

Lemma lookup_key_inv {A} (d : gmap string A) key v :
  lookup_key d key = Ret v -> d !! key = Some v.
Proof. unfold lookup_key. destruct (d !! key); [by intros [= ->] | discriminate]. Qed.

Lemma read_file_inv {A} p (f : env -> option A) E s a s1 :
  read_file p f E s = (Ret a, s1) -> f E = Some a.
Proof.
  unfold read_file. destruct (f E); intros H; [by injection H as -> _ | discriminate].
Qed.

(** ** The IPFS connection *)

(** X1.  [_open_ipfs_connection] never raises, whatever the daemon and
    the client library do: it returns with [self._client] assigned, the
    connected client when [ipfs init], [ipfs daemon] and the connection
    all answered and [None] otherwise, and it logs the warning exactly in
    the second case.  The record file is not touched. *)
Theorem open_ipfs_connection_never_raises E s :
  fst (_open_ipfs_connection E s) = Ret tt ∧
  (∃ c, _client (self (snd (_open_ipfs_connection E s))) = Some c ∧
        (c = IpfsClient ↔
         Popen E ["ipfs"; "init"] = Ret tt ∧ Popen E ["ipfs"; "daemon"] = Ret tt ∧
         ipfs_connect E "/ip4/127.0.0.1/tcp/5001/http" = Ret tt) ∧
        on_trace warned (snd (_open_ipfs_connection E s)) =
        on_trace warned s ++
        match c with PyNone => [MsgNotConnectedIpfs] | IpfsClient => [] end) ∧
  contr_info_file (snd (_open_ipfs_connection E s)) = contr_info_file s.
Proof.
  split; [apply open_ipfs_connection_returns |].
  split; [| apply file_open_ipfs_connection].
  unfold _open_ipfs_connection, try_except, subprocess_Popen,
    ipfshttpclient_connect, external, mbind, M_bind, bind, on_trace.
  simpl.
  destruct (Popen E ["ipfs"; "init"]) as [[] | e1]; simpl.
  2: { exists PyNone. rewrite !omap_app. simpl. rewrite !app_nil_r.
       repeat split; try done. by intros (? & _). }
  destruct (Popen E ["ipfs"; "daemon"]) as [[] | e2]; simpl.
  2: { exists PyNone. rewrite !omap_app. simpl. rewrite !app_nil_r.
       repeat split; try done. by intros (_ & ? & _). }
  destruct (ipfs_connect E _) as [[] | e3]; simpl.
  - exists IpfsClient. rewrite !omap_app. simpl. by rewrite !app_nil_r.
  - exists PyNone. rewrite !omap_app. simpl. rewrite !app_nil_r.
    repeat split; try done. by intros (_ & _ & ?).
Qed.

(** ** The constructor *)

(** X2.  [__init__] returns exactly when the connection yields an
    account, the node answers the gas price and the balance of that
    account, and the balance covers 600000 units of gas at that price;
    the object then holds the configured chain and the account's address
    and nothing else. *)
Theorem init_returns_iff E s :
  (fst (__init__ E s) = Ret tt ↔
   ∃ pk P B, MakeW3 E = Ret pk ∧ gasPrice E = Ret P ∧ getBalance E pk = Ret B ∧
             600000 * P ≤ B) ∧
  (∀ pk, MakeW3 E = Ret pk -> fst (__init__ E s) = Ret tt ->
         self (snd (__init__ E s)) =
           set_pubkey pk (set_current_chain (config_current_chain E) (self s)) ∧
         trace (snd (__init__ E s)) =
           trace s ++ [EMakeW3; EGasPrice; EGetBalance pk]).
Proof.
  destruct (MakeW3 E) as [pk | e] eqn:Hw.
  - rewrite (init_run E s pk Hw).
    destruct (gasPrice E) as [P | e] eqn:HP.
    + destruct (getBalance E pk) as [B | e] eqn:HB.
      * rewrite (check_balance_run E _ pk B P) by done. simpl. split.
        -- case_bool_decide as Hlt; split.
           ++ discriminate.
           ++ intros (pk' & P' & B' & [= <-] & [= <-] & HB' & Hle).
              rewrite HB in HB'. injection HB' as <-. lia.
           ++ intros _. exists pk, P, B. repeat split; try done. lia.
           ++ done.
        -- intros pk' [= <-] _. split; [done |]. by rewrite <- app_assoc.
      * assert (Hr : fst (check_balance E
                   (State (set_pubkey pk (set_current_chain (config_current_chain E) (self s)))
                      (contr_info_file s) (trace s ++ [EMakeW3]))) = Raise e).
        { unfold check_balance, eth_gasPrice, eth_getBalance.
          rewrite (run_external _ _ _ _ _ P HP).
          rewrite (run_attr _ _ _ _ _ pk) by done.
          rewrite run_bind. unfold external. by rewrite HB. }
        rewrite Hr. split; [split |]; try discriminate.
        intros (pk' & P' & B' & [= <-] & _ & HB' & _). congruence.
    + assert (Hr : fst (check_balance E
                   (State (set_pubkey pk (set_current_chain (config_current_chain E) (self s)))
                      (contr_info_file s) (trace s ++ [EMakeW3]))) = Raise e).
      { unfold check_balance, eth_gasPrice. rewrite run_bind. unfold external.
        by rewrite HP. }
      rewrite Hr. split; [split |]; try discriminate.
      intros (pk' & P' & B' & _ & ? & _). congruence.
  - assert (Hr : fst (__init__ E s) = Raise e).
    { unfold __init__. rewrite run_bind. simpl. rewrite run_bind. simpl.
      rewrite run_bind. unfold external. by rewrite Hw. }
    rewrite Hr. split; [split |]; try discriminate.
    intros (pk' & P' & B' & ? & _). congruence.
Qed.

(** ** The compiler *)

(** X3.  When [_compile_contract] returns, both files were read, the
    options parsed to an object whose ["sources"] object has an object
    for ["BlockCertsOnchaining.sol"], the compiler was run on those
    options with the contract source set as that entry's ["content"] and
    every other option as in the file, and [self.bytecode] and
    [self.abi] are the bytecode object and the [output.abi] of the
    metadata of contract [BlockCertsOnchaining] in what the compiler
    answered. *)
Theorem compile_contract_returns E s s' :
  _compile_contract E s = (Ret tt, s') ->
  ∃ src (opt srcs entry : gmap string json) out by_file by_name c
    (meta output : gmap string json) a,
    contract_file E = Some src ∧
    compile_data_file E = Some (JsonText (JObj opt)) ∧
    opt !! "sources" = Some (JObj srcs) ∧
    srcs !! "BlockCertsOnchaining.sol" = Some (JObj entry) ∧
    compile_standard E
      (JObj (<["sources" :=
                 JObj (<["BlockCertsOnchaining.sol" :=
                           JObj (<["content" := JStr src]> entry)]> srcs)]> opt))
      = Ret out ∧
    contracts out = Some by_file ∧
    by_file !! "BlockCertsOnchaining.sol" = Some by_name ∧
    by_name !! "BlockCertsOnchaining" = Some c ∧
    metadata c = JsonText (JObj meta) ∧
    meta !! "output" = Some (JObj output) ∧
    output !! "abi" = Some a ∧
    bytecode (self s') = Some (evm_bytecode_object c) ∧
    abi (self s') = Some a.
Proof.
  intros H. unfold _compile_contract in H.
  apply bind_ret_inv in H as (src & s1 & Hsrc & H). apply read_file_inv in Hsrc.
  apply bind_ret_inv in H as (raw & s2 & Hraw & H). apply read_file_inv in Hraw.
  apply bind_ret_inv in H as (opt0 & s3 & Hopt & H).
  apply lift_inv in Hopt as [Hopt ->]. apply json_loads_inv in Hopt as ->.
  apply bind_ret_inv in H as (srcs0 & s4 & H1 & H).
  apply lift_inv in H1 as [H1 ->]. apply getitem_inv in H1 as (opt & -> & Hsources).
  apply bind_ret_inv in H as (entry0 & s5 & H2 & H).
  apply lift_inv in H2 as [H2 ->]. apply getitem_inv in H2 as (srcs & -> & Hentry).
  apply bind_ret_inv in H as (entry1 & s6 & H3 & H).
  apply lift_inv in H3 as [H3 ->]. apply setitem_inv in H3 as (entry & -> & ->).
  apply bind_ret_inv in H as (srcs1 & s7 & H4 & H).
  apply lift_inv in H4 as [H4 ->]. apply setitem_inv in H4 as (? & [= <-] & ->).
  apply bind_ret_inv in H as (opt1 & s8 & H5 & H).
  apply lift_inv in H5 as [H5 ->]. apply setitem_inv in H5 as (? & [= <-] & ->).
  apply bind_ret_inv in H as (out & s9 & Hout & H).
  apply external_inv in Hout as [Hout ->].
  apply bind_ret_inv in H as (by_file & s10 & H6 & H).
  apply lift_inv in H6 as [H6 ->].
  destruct (contracts out) as [by_file' |] eqn:Hc; [| discriminate].
  injection H6 as ->.
  apply bind_ret_inv in H as (by_name & s11 & H7 & H).
  apply lift_inv in H7 as [H7 ->]. apply lookup_key_inv in H7.
  apply bind_ret_inv in H as (c & s12 & H8 & H).
  apply lift_inv in H8 as [H8 ->]. apply lookup_key_inv in H8.
  apply bind_ret_inv in H as ([] & s13 & Hb & H). injection Hb as <-.
  apply bind_ret_inv in H as (meta0 & s14 & H9 & H).
  apply lift_inv in H9 as [H9 ->]. apply json_loads_inv in H9.
  apply bind_ret_inv in H as (output0 & s15 & H10 & H).
  apply lift_inv in H10 as [H10 ->]. apply getitem_inv in H10 as (meta & -> & Hmeta).
  apply bind_ret_inv in H as (a & s16 & H11 & H).
  apply lift_inv in H11 as [H11 ->]. apply getitem_inv in H11 as (output & -> & Habi).
  injection H as <-. simpl.
  exists src, opt, srcs, entry, out, by_file, by_name, c, meta, output, a.
  repeat split; done.
Qed.

Lemma compile_contract_returns_witness :
  _compile_contract Sample.rich Sample.connected =
    (Ret tt, snd (_compile_contract Sample.rich Sample.connected)) ∧
  ∃ c a,
    bytecode (self (snd (_compile_contract Sample.rich Sample.connected))) =
      Some (evm_bytecode_object c) ∧
    abi (self (snd (_compile_contract Sample.rich Sample.connected))) = Some a.
Proof.
  split; [reflexivity |].
  destruct (compile_contract_returns Sample.rich Sample.connected _ eq_refl)
    as (src & opt & srcs & entry & out & by_file & by_name & c & meta & output & a &
        _ & _ & _ & _ & _ & _ & _ & _ & _ & _ & _ & Hb & Ha).
  exists c, a. split; [exact Hb | exact Ha].
Defined.

(** X4.  Whatever it returns, [_compile_contract] issues nothing but
    reads of files and the compiler run, and leaves the record file
    alone; when it raises, [self.abi] is as it was before the call. *)
Theorem compile_contract_is_local E s :
  on_trace beyond_compiler (snd (_compile_contract E s)) = on_trace beyond_compiler s ∧
  contr_info_file (snd (_compile_contract E s)) = contr_info_file s ∧
  (∀ e, fst (_compile_contract E s) = Raise e ->
        abi (self (snd (_compile_contract E s))) = abi (self s)).
Proof.
  split; [| split].
  - assert (H : preserves (on_trace beyond_compiler) _compile_contract)
      by frame_of _compile_contract.
    apply H.
  - apply file_compile_contract.
  - intros e He. destruct (_compile_contract E s) as [r s'] eqn:H. simpl in *.
    unfold _compile_contract in H.
    do 16 (invert_bind H; [framed (on_self abi); unfold on_self in *; congruence |]).
    injection H as <- _. discriminate He.
Qed.

(** ** The broadcast *)

(** [__init__] returns with the address of the account in [_pubkey]. *)
Lemma init_pubkey E s s1 :
  __init__ E s = (Ret tt, s1) ->
  ∃ pk, MakeW3 E = Ret pk ∧ _pubkey (self s1) = Some pk.
Proof.
  intros H. destruct (MakeW3 E) as [pk | e] eqn:Hw.
  - exists pk. split; [done |]. rewrite (init_run E s pk Hw) in H.
    apply (preserves_run (on_self _pubkey)) in H; [| frame]. exact H.
  - unfold __init__ in H. rewrite run_bind in H. simpl in H.
    rewrite run_bind in H. simpl in H. rewrite run_bind in H.
    unfold external in H. rewrite Hw in H. discriminate.
Qed.

(** What [_deploy] broadcasts. *)
Lemma deploy_sent E s :
  on_trace sent (snd (_deploy E s)) = on_trace sent s ∨
  ∃ a b pk g n txn raw,
    abi (self s) = Some a ∧ bytecode (self s) = Some b ∧ _pubkey (self s) = Some pk ∧
    estimateGas E a b = Ret g ∧ getTransactionCount E pk = Ret n ∧
    buildTransaction E {| nonce := n; gas := g * 2 |} = Ret txn ∧
    sign_transaction E txn = Ret raw ∧
    on_trace sent (snd (_deploy E s)) = on_trace sent s ++ [raw].
Proof.
  destruct (_deploy E s) as [r s'] eqn:H. simpl. unfold _deploy in H.
  name_bind H as a s1 Ha; [left; by framed (on_trace sent) |].
  name_bind H as b s2 Hb; [left; framed (on_trace sent); congruence |].
  name_bind H as u s3 Hc; [left; framed (on_trace sent); congruence |].
  name_bind H as pk s4 Hpk; [left; framed (on_trace sent); congruence |].
  name_bind H as g s5 Hg; [left; framed (on_trace sent); congruence |].
  name_bind H as n s6 Hn; [left; framed (on_trace sent); congruence |].
  name_bind H as txn s7 Htxn; [left; framed (on_trace sent); congruence |].
  name_bind H as raw s8 Hraw; [left; framed (on_trace sent); congruence |].
  right. exists a, b, pk, g, n, txn, raw.
  pose proof (attr_inv _ _ _ _ _ _ Ha) as [Ha' ->].
  pose proof (attr_inv _ _ _ _ _ _ Hb) as [Hb' ->].
  pose proof (attr_inv _ _ _ _ _ _ Hpk) as [Hpk' ->].
  assert (Hself : on_self _pubkey s3 = on_self _pubkey s) by (framed (on_self _pubkey); congruence).
  pose proof (external_inv _ _ _ _ _ _ Hg) as [Hg' _].
  pose proof (external_inv _ _ _ _ _ _ Hn) as [Hn' _].
  pose proof (external_inv _ _ _ _ _ _ Htxn) as [Htxn' _].
  pose proof (external_inv _ _ _ _ _ _ Hraw) as [Hraw' _].
  unfold on_self in Hself. repeat split; try done; try congruence.
  unfold eth_sendRawTransaction in H.
  match type of H with
  | (_ ≫= ?k) _ _ = _ =>
      assert (Hk : ∀ x, preserves (on_trace sent) (k x)) by (intros; frame);
      pose proof (external_then sent (ESendRawTransaction raw)
                    (λ E, sendRawTransaction E raw) k E s8 Hk) as Hs
  end.
  rewrite H in Hs. simpl in Hs. rewrite Hs.
  framed (on_trace sent). congruence.
Qed.

(** X5.  A run calls [sendRawTransaction] at most once, for the
    transaction that creates the contract (the ENS transactions go
    through [transact] of the contract connections and are not counted
    here), and what it passes is what the account signed: the signature
    of the transaction built for [self.abi] and [self.bytecode] with the
    nonce the node answered for the account and with twice the gas
    estimate for that ABI and bytecode. *)
Theorem run_sends_one_raw_transaction E f :
  on_trace sent (snd (run E f)) = [] ∨
  ∃ pk a b g n txn raw,
    MakeW3 E = Ret pk ∧
    abi (self (snd (run E f))) = Some a ∧
    bytecode (self (snd (run E f))) = Some b ∧
    estimateGas E a b = Ret g ∧
    getTransactionCount E pk = Ret n ∧
    buildTransaction E {| nonce := n; gas := 2 * g |} = Ret txn ∧
    sign_transaction E txn = Ret raw ∧
    on_trace sent (snd (run E f)) = [raw].
Proof.
  unfold run. destruct (main E (initial f)) as [r s'] eqn:H. simpl.
  apply main_inv in H
    as [(e & H1 & _) | (s1 & s2 & H1 & H2 & [(e & H3 & _) | (s3 & H3 & H4)])].
  - left. by framed (on_trace sent).
  - left. framed (on_trace sent). unfold on_trace in *. simpl in *. congruence.
  - destruct (init_pubkey E _ _ H1) as (pk & Hw & Hpk).
    assert (Hpk3 : _pubkey (self s3) = Some pk).
    { observe (on_self _pubkey). unfold on_self in *. congruence. }
    assert (Hs3 : on_trace sent s3 = []).
    { framed (on_trace sent). unfold on_trace in *. simpl in *. congruence. }
    assert (Hs' : on_trace sent s' = on_trace sent (snd (_deploy E s3))).
    { destruct H4 as [(e & H4 & _) | (s4 & H4 & H5)]; rewrite H4; simpl.
      - done.
      - eapply preserves_run; [| exact H5]. frame. }
    assert (Hab : on_self abi s' = on_self abi s3 ∧
                  on_self bytecode s' = on_self bytecode s3).
    { destruct H4 as [(e & H4 & _) | (s4 & H4 & H5)].
      - split; (eapply preserves_run; [| exact H4]; frame).
      - split; (transitivity (on_self abi s4) || transitivity (on_self bytecode s4));
          try (eapply preserves_run; [| exact H5]; frame);
          (eapply preserves_run; [| exact H4]; frame). }
    destruct Hab as [Habi Hbyte]. unfold on_self in Habi, Hbyte.
    destruct (deploy_sent E s3)
      as [Hd | (a & b & pk' & g & n & txn & raw & Ha & Hb & Hpk' & Hg & Hn & Ht & Hr & Hd)].
    + left. congruence.
    + right. exists pk, a, b, g, n, txn, raw.
      assert (pk' = pk) as -> by congruence.
      replace (2 * g) with (g * 2) by lia.
      split_and!; try done; try congruence. rewrite Hs', Hd, Hs3. done.
Qed.

(** ** The record file *)

(** X6.  A record file that holds valid JSON that is not an object (a
    list, a string, a number) makes the update raise [TypeError] at the
    item assignment: the file is not opened for writing and keeps its
    content, although [self.contr_address] has been assigned; and a run
    started on such a file does not return and leaves it as it was. *)
Theorem update_rejects_non_object rc E s v a :
  contr_info_file s = Some (JsonText v) -> (∀ m, v ≠ JObj m) ->
  abi (self s) = Some a ->
  fst (save_contract_data rc E s) = Raise TypeError ∧
  contr_info_file (snd (save_contract_data rc E s)) = Some (JsonText v) ∧
  contr_address (self (snd (save_contract_data rc E s))) = Some (contractAddress rc) ∧
  on_trace mutating (snd (save_contract_data rc E s)) = on_trace mutating s ∧
  (∀ E', fst (run E' (Some (JsonText v))) ≠ Ret tt ∧
         contr_info_file (snd (run E' (Some (JsonText v)))) = Some (JsonText v)).
Proof.
  intros Hf Hv Ha. rewrite save_contract_data_run. simpl. rewrite Hf, Ha.
  assert (Hrun : ∀ E', fst (run E' (Some (JsonText v))) ≠ Ret tt ∧
            contr_info_file (snd (run E' (Some (JsonText v)))) = Some (JsonText v)).
  { intros E'. split.
    - intros Hr. apply run_returns in Hr as (_ & _ & m & _ & Hm & _).
      injection Hm as ->. by destruct (Hv m).
    - destruct (run_file E' (Some (JsonText v))) as [? | (_ & _ & m & _ & _ & Hm & _)];
        [done |].
      injection Hm as ->. by destruct (Hv m). }
  destruct v as [| | | | | | m]; try by destruct (Hv m).
  all: simpl; repeat split; try done; try apply Hrun;
    unfold on_trace; simpl; rewrite omap_app; simpl; apply app_nil_r.
Qed.

Lemma update_rejects_non_object_witness :
  contr_info_file (Sample.compiled Sample.list_store) = Some (JsonText (JArr [JNum 1])) ∧
  (∀ m, JArr [JNum 1] ≠ JObj m) ∧
  abi (self (Sample.compiled Sample.list_store)) = Some Sample.the_abi ∧
  fst (save_contract_data Sample.receipt_A Sample.rich (Sample.compiled Sample.list_store))
    = Raise TypeError ∧
  contr_info_file
    (snd (save_contract_data Sample.receipt_A Sample.rich
            (Sample.compiled Sample.list_store))) = Some (JsonText (JArr [JNum 1])).
Proof.
  split; [reflexivity |]. split; [discriminate |]. split; [reflexivity |].
  pose proof (update_rejects_non_object Sample.receipt_A Sample.rich
                (Sample.compiled Sample.list_store) (JArr [JNum 1]) Sample.the_abi
                eq_refl ltac:(discriminate) eq_refl) as (H1 & H2 & _).
  split; [exact H1 | exact H2].
Defined.

(** ** The order of a run *)

(** X7.  Nothing is added to IPFS, no ENS contract is called and the
    content channel is not closed before the deployment is on record: a
    run that has issued any of these calls has had a receipt confirmed
    and has written the record of that deployment into the record
    file. *)
Theorem late_effects_follow_deployment E f :
  on_trace ipfs_added (snd (run E f)) ≠ [] ∨
  on_trace ens_call (snd (run E f)) ≠ [] ∨
  on_trace closing (snd (run E f)) ≠ [] ->
  ∃ rc a m,
    confirmed E (snd (run E f)) rc ∧
    f = Some (JsonText (JObj m)) ∧
    contr_info_file (snd (run E f)) =
      Some (JsonText (JObj (<[record_key := record_of a (contractAddress rc)]> m))).
Proof.
  unfold run. destruct (main E (initial f)) as [r s'] eqn:H. simpl. intros Hobs.
  assert (Hearly : ∀ sa,
            on_trace ipfs_added s' = on_trace ipfs_added sa ->
            on_trace ens_call s' = on_trace ens_call sa ->
            on_trace closing s' = on_trace closing sa ->
            on_trace ipfs_added sa = [] -> on_trace ens_call sa = [] ->
            on_trace closing sa = [] -> False).
  { intros sa H1 H2 H3 H4 H5 H6. rewrite H1, H2, H3, H4, H5, H6 in Hobs.
    by destruct Hobs as [? | [? | ?]]. }
  apply main_inv in H
    as [(e & H1 & _) | (s1 & s2 & H1 & H2 & [(e & H3 & _) | (s3 & H3 & H4)])].
  - destruct (Hearly (initial f)); try done;
      (eapply preserves_run; [| exact H1]; frame).
  - destruct (Hearly (initial f)); try done.
    + observe (on_trace ipfs_added). congruence.
    + observe (on_trace ens_call). congruence.
    + observe (on_trace closing). congruence.
  - assert (Hs3 : contr_info_file s3 = f).
    { observe on_file. unfold on_file in *. simpl in *. congruence. }
    destruct H4 as [(e & H4 & _) | (s4 & H4 & H5)].
    + destruct (Hearly (initial f)); try done.
      * observe (on_trace ipfs_added). congruence.
      * observe (on_trace ens_call). congruence.
      * observe (on_trace closing). congruence.
    + apply deploy_file in H4
        as [(e & ? & _) | (rc & a & m & _ & (h & Hh & Hrc) & _ & _ & Hold & Hnew)];
        [discriminate |].
      assert (Hf : on_file s' = on_file s4) by (eapply preserves_run; [| exact H5]; frame).
      assert (Hw : on_trace waited s' = on_trace waited s4)
        by (eapply preserves_run; [| exact H5]; frame).
      exists rc, a, m. unfold on_file in *. repeat split; try congruence.
      exists h. by rewrite Hw.
Qed.

Lemma late_effects_follow_deployment_witness :
  (on_trace ipfs_added (snd (run Sample.ropsten_up Sample.empty_store)) ≠ [] ∨
   on_trace ens_call (snd (run Sample.ropsten_up Sample.empty_store)) ≠ [] ∨
   on_trace closing (snd (run Sample.ropsten_up Sample.empty_store)) ≠ []) ∧
  ∃ rc a m,
    confirmed Sample.ropsten_up (snd (run Sample.ropsten_up Sample.empty_store)) rc ∧
    Sample.empty_store = Some (JsonText (JObj m)) ∧
    contr_info_file (snd (run Sample.ropsten_up Sample.empty_store)) =
      Some (JsonText (JObj (<[record_key := record_of a (contractAddress rc)]> m))).
Proof.
  assert (H : on_trace ipfs_added (snd (run Sample.ropsten_up Sample.empty_store)) ≠ [] ∨
              on_trace ens_call (snd (run Sample.ropsten_up Sample.empty_store)) ≠ [] ∨
              on_trace closing (snd (run Sample.ropsten_up Sample.empty_store)) ≠ []).
  { left. vm_compute. discriminate. }
  split; [exact H |].
  exact (late_effects_follow_deployment Sample.ropsten_up Sample.empty_store H).
Defined.

(** ** The name binding *)

Tactic Notation "name_ret" hyp(H) "as" ident(a) ident(s1) ident(H1) :=
  apply bind_ret_inv in H as (a & s1 & H1 & H).

Lemma ask_inv {A} (f : env -> A) E s a s1 :
  ask f E s = (Ret a, s1) -> a = f E ∧ s1 = s.
Proof. unfold ask. intros H. by injection H as <- <-. Qed.

Lemma compute_inv {A} (f : env -> result A) E s a s1 :
  compute f E s = (Ret a, s1) -> f E = Ret a ∧ s1 = s.
Proof. unfold compute. intros H. by injection H as -> <-. Qed.

Lemma transact_args_trace c m args E s r s1 :
  functions_transact c m args E s = (r, s1) ->
  on_trace transact_args s1 = on_trace transact_args s ++ [(c, m, args)].
Proof.
  unfold functions_transact, external. intros H. injection H as _ <-.
  exact (on_trace_snoc transact_args s _ _ (ETransact c m args)).
Qed.

Lemma call_trace c m args E s r s1 :
  functions_call c m args E s = (r, s1) ->
  on_trace called s1 = on_trace called s ++ [(c, m)].
Proof.
  unfold functions_call, external. intros H. injection H as _ <-.
  exact (on_trace_snoc called s _ _ (ECall c m args)).
Qed.

(** The content pointer that is set: the encoding of [self.ipfs_hash]. *)
Lemma set_contenthash_args (c : client) resolver subnode E s u s' :
  match c with
  | PyNone => ret ()
  | IpfsClient =>
      h ← attr "ipfs_hash" ipfs_hash;
      chash ← compute (λ E : env, content_hash_encode E "ipfs-ns" h);
      functions_transact resolver "setContenthash" [VBytes subnode; VStr chash]
  end E s = (Ret u, s') ->
  ∃ tail,
    on_trace transact_args s' = on_trace transact_args s ++ tail ∧
    match c with
    | PyNone => tail = []
    | IpfsClient =>
        ∃ h chash,
          ipfs_hash (self s) = Some h ∧
          content_hash_encode E "ipfs-ns" h = Ret chash ∧
          tail = [(resolver, "setContenthash", [VBytes subnode; VStr chash])]
    end.
Proof.
  intros H. destruct c.
  - injection H as _ <-. exists []. by rewrite app_nil_r.
  - name_ret H as h s1 Hh. name_ret H as chash s2 Hc.
    apply attr_inv in Hh as [Hh ->]. apply compute_inv in Hc as [Hc ->].
    apply transact_args_trace in H. eauto 10.
Qed.

(** The read-back of the content pointer. *)
Lemma read_content_called (c : client) resolver subnode E s x s' :
  match c with
  | PyNone => ret "that is empty"
  | IpfsClient =>
      v ← functions_call resolver "contenthash" [VBytes subnode];
      content ← py_hex v;
      compute (λ E : env, content_hash_decode E content)
  end E s = (Ret x, s') ->
  on_trace called s' =
  on_trace called s ++
  match c with IpfsClient => [(resolver, "contenthash")] | PyNone => [] end.
Proof.
  intros H. destruct c.
  - injection H as _ <-. by rewrite app_nil_r.
  - name_ret H as v s1 Hv. name_ret H as content s2 Hc.
    apply call_trace in Hv. framed (on_trace called). congruence.
Qed.

(** X8.  When [_assign_ens] returns, it has sent, in this order:
    [setSubnodeOwner] for the node of ["blockcerts.eth"] and the hash of
    the label ["tub"], and [setResolver] for the node of
    ["tub.blockcerts.eth"], to the registry; [setAddr] with the
    checksummed contract address and [setName] with
    ["tub.blockcerts.eth"], for that node, to the resolver; and, with a
    connected client only, [setContenthash] with the ["ipfs-ns"] encoding
    of [self.ipfs_hash].  It has then read back [addr], [name] and, with
    a client, [contenthash]; and [self.contr_address] has become the
    checksummed address. *)
Theorem assign_ens_arguments E s s' :
  _assign_ens E s = (Ret tt, s') ->
  ∃ a c cl tail,
    contr_address (self s) = Some a ∧ toChecksumAddress E a = Ret c ∧
    contr_address (self s') = Some c ∧ _client (self s) = Some cl ∧
    on_trace transact_args s' =
      on_trace transact_args s ++
      [("ropsten_ens_registry", "setSubnodeOwner",
        [VBytes (namehash E "blockcerts.eth"); VBytes (keccak E "tub");
         VStr "0xB4d9313EE835b3d3eE7759826e1F3C3Ac23dFaf3"]);
       ("ropsten_ens_registry", "setResolver",
        [VBytes (namehash E "tub.blockcerts.eth");
         VStr "0x12299799a50340FB860D276805E78550cBaD3De3"]);
       ("ropsten_ens_resolver", "setAddr",
        [VBytes (namehash E "tub.blockcerts.eth"); VStr c]);
       ("ropsten_ens_resolver", "setName",
        [VBytes (namehash E "tub.blockcerts.eth"); VStr "tub.blockcerts.eth"])] ++
      tail ∧
    match cl with
    | PyNone => tail = []
    | IpfsClient =>
        ∃ h chash,
          ipfs_hash (self s) = Some h ∧
          content_hash_encode E "ipfs-ns" h = Ret chash ∧
          tail = [("ropsten_ens_resolver", "setContenthash",
                   [VBytes (namehash E "tub.blockcerts.eth"); VStr chash])]
    end ∧
    on_trace called s' =
      on_trace called s ++
      [("ropsten_ens_resolver", "addr"); ("ropsten_ens_resolver", "name")] ++
      match cl with
      | IpfsClient => [("ropsten_ens_resolver", "contenthash")]
      | PyNone => []
      end.
Proof.
  intros H. unfold _assign_ens in H. cbv zeta in H.
  name_ret H as reg s1 Hreg. name_ret H as node s2 Hnode.
  name_ret H as label s3 Hlabel. name_ret H as u4 s4 Hown.
  name_ret H as subnode s5 Hsub. name_ret H as u6 s6 Hres.
  name_ret H as rsv s7 Hrsv. name_ret H as a s8 Ha.
  name_ret H as c s9 Hc. name_ret H as u10 s10 Hset.
  name_ret H as u11 s11 Haddr. name_ret H as u12 s12 Hname.
  name_ret H as cl s13 Hcl. name_ret H as u14 s14 Hhash.
  name_ret H as addr s15 Hcaddr. name_ret H as name s16 Hcname.
  name_ret H as cl' s17 Hcl'. name_ret H as content s18 Hcontent.
  pose proof (new_ContractConnection_name _ _ _ _ _ Hreg) as ->.
  pose proof (new_ContractConnection_name _ _ _ _ _ Hrsv) as ->.
  apply ask_inv in Hnode as [-> ->]. apply ask_inv in Hlabel as [-> ->].
  apply ask_inv in Hsub as [-> ->].
  apply attr_inv in Ha as [Ha ->]. apply compute_inv in Hc as [Hc ->].
  injection Hset as _ <-.
  apply attr_inv in Hcl as [Hcl ->]. apply attr_inv in Hcl' as [Hcl' ->].
  (* the attributes read along the way are those of [s] *)
  assert (Ha0 : contr_address (self s) = Some a).
  { observe (on_self contr_address). unfold on_self in *. congruence. }
  assert (Hcl0 : _client (self s) = Some cl).
  { observe (on_self _client). unfold on_self in *. simpl in *. congruence. }
  assert (cl' = cl) as ->.
  { observe (on_self _client). unfold on_self in *. simpl in *. congruence. }
  assert (Hc' : contr_address (self s') = Some c).
  { observe (on_self contr_address). unfold on_self in *. simpl in *. congruence. }
  assert (Hh12 : ipfs_hash (self s12) = ipfs_hash (self s)).
  { observe (on_self ipfs_hash). unfold on_self in *. simpl in *. congruence. }
  (* the transactions *)
  pose proof (set_contenthash_args _ _ _ _ _ _ _ Hhash) as (tail & Htail & Hcase).
  exists a, c, cl, tail. do 4 (split; [done |]).
  split; [| split].
  - apply transact_args_trace in Hown, Hres, Haddr, Hname.
    observe (on_trace transact_args). unfold on_trace in *. simpl in *.
    repeat match goal with
           | H : omap transact_args (trace _) = _ |- _ => rewrite H; clear H
           end.
    by rewrite <- !app_assoc.
  - destruct cl; [done |]. destruct Hcase as (h & chash & Hh & Hch & ->).
    exists h, chash. by rewrite <- Hh12.
  - apply call_trace in Hcaddr, Hcname. apply read_content_called in Hcontent.
    observe (on_trace called). unfold on_trace in *. simpl in *.
    repeat match goal with
           | H : omap called (trace _) = _ |- _ => rewrite H; clear H
           end.
    by rewrite <- !app_assoc.
Qed.

Lemma assign_ens_arguments_witness :
  _assign_ens Sample.ropsten_up
    (snd (publish_contr_info Sample.ropsten_up Sample.deployed)) =
    (Ret tt,
     snd (_assign_ens Sample.ropsten_up
            (snd (publish_contr_info Sample.ropsten_up Sample.deployed)))) ∧
  ∃ a c,
    contr_address (self (snd (publish_contr_info Sample.ropsten_up Sample.deployed))) =
      Some a ∧
    toChecksumAddress Sample.ropsten_up a = Ret c ∧
    contr_address
      (self (snd (_assign_ens Sample.ropsten_up
                    (snd (publish_contr_info Sample.ropsten_up Sample.deployed))))) =
      Some c.
Proof.
  assert (H : _assign_ens Sample.ropsten_up
                (snd (publish_contr_info Sample.ropsten_up Sample.deployed)) =
              (Ret tt,
               snd (_assign_ens Sample.ropsten_up
                      (snd (publish_contr_info Sample.ropsten_up Sample.deployed)))))
    by (vm_compute; reflexivity).
  split; [exact H |].
  destruct (assign_ens_arguments Sample.ropsten_up
              (snd (publish_contr_info Sample.ropsten_up Sample.deployed)) _ H)
    as (a & c & cl & tail & Ha & Hc & Hc' & _).
  exists a, c. split; [exact Ha |]. split; [exact Hc | exact Hc'].
Defined.

(** Gathers what the runs among the hypotheses have sent to the ENS
    contracts and closes a goal [on_trace transacted s' = on_trace
    transacted s ++ ?l] with it. *)
Ltac sent_so_far :=
  repeat match goal with
         | H : new_ContractConnection _ _ _ = (Ret ?x, _) |- _ =>
             pose proof (new_ContractConnection_name _ _ _ _ _ H); subst x
         end;
  repeat match goal with
         | H : functions_transact _ _ _ _ _ = _ |- _ => apply transact_trace in H
         end;
  framed (on_trace transacted);
  eexists; split;
  [ repeat match goal with
           | H : on_trace transacted _ = _ |- _ => rewrite H; clear H
           end;
    rewrite <- ?app_assoc; first [reflexivity | symmetry; apply app_nil_r]
  | unfold binding_sequence; eexists; simpl; reflexivity ].

(** X9.  However [_assign_ens] ends, the ENS transactions it has
    attempted are an initial part of the binding sequence
    [setSubnodeOwner], [setResolver], [setAddr], [setName],
    [setContenthash], in this order: a failure part of the way leaves the
    earlier ones sent and nothing after the one that failed. *)
Theorem assign_ens_sends_prefix E s :
  ∃ l, on_trace transacted (snd (_assign_ens E s)) = on_trace transacted s ++ l ∧
       l `prefix_of` binding_sequence.
Proof.
  destruct (_assign_ens E s) as [r s'] eqn:H. simpl.
  unfold _assign_ens in H. cbv zeta in H.
  do 12 (invert_bind H; [sent_so_far |]).
  name_bind H as cl s13 Hcl; [sent_so_far |].
  name_bind H as u14 s14 Hhash.
  { destruct cl; [discriminate |].
    do 2 (apply bind_inv in H as [(? & H & _) | (? & ? & ? & H)]; [sent_so_far |]).
    sent_so_far. }
  assert (Hh : ∃ l5, on_trace transacted s14 = on_trace transacted s13 ++ l5 ∧
                     (l5 = [] ∨ l5 = [("ropsten_ens_resolver", "setContenthash")])).
  { repeat match goal with
           | H : new_ContractConnection _ _ _ = (Ret ?x, _) |- _ =>
               pose proof (new_ContractConnection_name _ _ _ _ _ H); subst x
           end.
    apply set_contenthash_trace in Hhash. destruct cl; eauto. }
  destruct Hh as (l5 & Hl5 & Hcase). clear Hhash.
  assert (Hrest : on_trace transacted s' = on_trace transacted s14).
  { do 4 (invert_bind H; [framed (on_trace transacted); congruence |]).
    framed (on_trace transacted). congruence. }
  clear H. rewrite Hrest, Hl5.
  repeat match goal with
         | H : new_ContractConnection _ _ _ = (Ret ?x, _) |- _ =>
             pose proof (new_ContractConnection_name _ _ _ _ _ H); subst x
         end.
  repeat match goal with
         | H : functions_transact _ _ _ _ _ = _ |- _ => apply transact_trace in H
         end.
  framed (on_trace transacted).
  repeat match goal with
         | H : on_trace transacted _ = _ |- _ => rewrite H; clear H
         end.
  rewrite <- !app_assoc. eexists. split; [reflexivity |].
  unfold binding_sequence. destruct Hcase as [-> | ->]; eexists; simpl; reflexivity.
Qed.

(** ** Publication and cleanup *)

(** X10.  When a client is connected and adding the record file to IPFS
    raises, [_update_ens_content] raises that exception at once:
    [self.ipfs_hash] stays [""], no ENS contract is called, and neither
    [ipfs shutdown] nor [client.close()] is issued, so the daemon is left
    running. *)
Theorem add_failure_skips_binding_and_cleanup E s e :
  _client (self s) = Some IpfsClient ->
  ipfs_add E (get_contr_info_path E) = Raise e ->
  fst (_update_ens_content E s) = Raise e ∧
  ipfs_hash (self (snd (_update_ens_content E s))) = Some "" ∧
  on_trace ipfs_added (snd (_update_ens_content E s)) =
    on_trace ipfs_added s ++ [get_contr_info_path E] ∧
  on_trace ens_call (snd (_update_ens_content E s)) = on_trace ens_call s ∧
  on_trace closing (snd (_update_ens_content E s)) = on_trace closing s ∧
  contr_info_file (snd (_update_ens_content E s)) = contr_info_file s.
Proof.
  intros Hc He.
  assert (Hrun : _update_ens_content E s =
                 (Raise e,
                  State (set_ipfs_hash "" (self s)) (contr_info_file s)
                    (trace s ++ [EIpfsAdd (get_contr_info_path E)]))).
  { unfold _update_ens_content, publish_contr_info. rewrite !run_bind. simpl.
    rewrite (run_attr _ _ _ _ _ IpfsClient) by exact Hc.
    rewrite run_bind. simpl. unfold client_add. rewrite run_bind.
    unfold external. by rewrite He. }
  rewrite Hrun. simpl. unfold on_trace. simpl. rewrite !omap_app. simpl.
  by rewrite !app_nil_r.
Qed.

Lemma add_failure_skips_binding_and_cleanup_witness :
  _client (self Sample.deployed) = Some IpfsClient ∧
  ipfs_add (Sample.add_fails Sample.ropsten_up)
    (get_contr_info_path (Sample.add_fails Sample.ropsten_up)) =
    Raise (ExternalError "add failed") ∧
  fst (_update_ens_content (Sample.add_fails Sample.ropsten_up) Sample.deployed) =
    Raise (ExternalError "add failed") ∧
  on_trace closing
    (snd (_update_ens_content (Sample.add_fails Sample.ropsten_up) Sample.deployed)) =
    on_trace closing Sample.deployed.
Proof.
  do 2 (split; [reflexivity |]).
  pose proof (add_failure_skips_binding_and_cleanup
                (Sample.add_fails Sample.ropsten_up) Sample.deployed
                (ExternalError "add failed") eq_refl eq_refl)
    as (H1 & _ & _ & _ & H5 & _).
  split; [exact H1 | exact H5].
Defined.

(** X11.  With no client and off the test network, [_update_ens_content]
    issues no external call at all: it returns having only reset
    [self.ipfs_hash] to [""]. *)
Theorem update_ens_content_idle E s chain :
  _client (self s) = Some PyNone ->
  current_chain (self s) = Some chain -> chain ≠ "ropsten" ->
  _update_ens_content E s =
  (Ret tt, State (set_ipfs_hash "" (self s)) (contr_info_file s) (trace s)).
Proof.
  intros Hc Hchain Hne. unfold _update_ens_content.
  rewrite run_bind, (publish_without_client E s Hc).
  rewrite run_bind, (gate_closed E _ chain) by done.
  unfold shutdown_ipfs. by rewrite (run_attr _ _ _ _ _ PyNone).
Qed.

Lemma update_ens_content_idle_witness :
  _client (self Sample.idle) = Some PyNone ∧
  current_chain (self Sample.idle) = Some "mainnet" ∧
  "mainnet" ≠ "ropsten" ∧
  _update_ens_content Sample.rich Sample.idle =
  (Ret tt,
   State (set_ipfs_hash "" (self Sample.idle)) (contr_info_file Sample.idle)
     (trace Sample.idle)).
Proof.
  do 2 (split; [reflexivity |]). split; [discriminate |].
  exact (update_ens_content_idle Sample.rich Sample.idle "mainnet"
           eq_refl eq_refl ltac:(discriminate)).
Defined.

(** ** The log of a deployment *)

Lemma save_sets_address rc E s u s' :
  save_contract_data rc E s = (Ret u, s') ->
  contr_address (self s') = Some (contractAddress rc).
Proof.
  rewrite save_contract_data_run. simpl.
  destruct (contr_info_file s) as [[raw | v] |]; try discriminate.
  destruct (abi (self s)), v; try discriminate.
  intros H. by injection H as _ <-.
Qed.

(** X12.  The line "deployed contr" is logged last: when [_deploy]
    raises, also after the receipt was confirmed and only the record
    update failed, the address of the new contract is not logged; when
    it returns, the address of the confirmed receipt is logged, once. *)
Theorem deploy_announces_on_return_only E s :
  (∀ e, fst (_deploy E s) = Raise e ->
        on_trace announced (snd (_deploy E s)) = on_trace announced s) ∧
  (fst (_deploy E s) = Ret tt ->
   ∃ rc, confirmed E (snd (_deploy E s)) rc ∧
         on_trace announced (snd (_deploy E s)) =
         on_trace announced s ++ [contractAddress rc]).
Proof.
  destruct (_deploy E s) as [r s'] eqn:H. simpl.
  pose proof (deploy_file E s r s' H) as Hfile.
  unfold _deploy in H. split.
  - intros e ->.
    do 12 (apply bind_inv in H as [(? & H & _) | (? & ? & ? & H)];
           [framed (on_trace announced); congruence |]).
    apply bind_inv in H as [(? & H & _) | (? & ? & ? & H)];
      [framed (on_trace announced); congruence | discriminate H].
  - intros ->.
    destruct Hfile as [(e & ? & _) | (rc & a & m & _ & Hconf & _ & Haddr & _)];
      [discriminate |].
    exists rc. split; [exact Hconf |].
    do 11 (apply bind_ret_inv in H as (? & ? & ? & H)).
    name_ret H as u s3 Hsave. name_ret H as addr s4 Hattr.
    apply attr_inv in Hattr as [Hattr ->].
    unfold logging, emit in H. injection H as <-. simpl in Haddr.
    assert (addr = contractAddress rc) as -> by congruence.
    clear Hattr Haddr Hconf.
    rewrite (on_trace_snoc announced s3 _ _ _). simpl.
    framed (on_trace announced). congruence.
Qed.
